(** * Alexandria IPFS service

    A shallow embedding of [internal/service]: the base58 identifier codec,
    the in-memory [MockClient] and the gRPC translation layer [GRPCServer],
    followed by the properties stated for them.

    Conventions.  A Go [[]byte] is a [list byte]; a Go [string] is a Rocq
    [string] (both are sequences of 8-bit characters); a Go [int] is a [Z]
    (every [int] of the codec stays below [2^14], see [divideStep_range]);
    [map[string]T] is a [gmap string T].  The mutex of [MockClient] and the
    calls to [log] have no counterpart: the model is sequential and the log
    is not part of any result. *)

From Stdlib Require Import ZArith Lia List Strings.String Strings.Ascii Strings.Byte.
From stdpp Require Import base option list strings gmap pretty.
From Equations Require Import Equations.

#[local] Open Scope Z_scope.

(** ** Bytes *)

(** [int(b)] for a byte [b]. *)
Definition byte_to_Z (b : byte) : Z := Z.of_N (Byte.to_N b).

(** [byte(z)] for an integer [z]: Go keeps the low eight bits. *)
Definition Z_to_byte (z : Z) : byte :=
  default x00 (Byte.of_N (Z.to_N (z mod 256))).

(** The big-endian unsigned integer a byte sequence denotes. *)
Definition be_acc (acc : Z) (l : list byte) : Z :=
  fold_left (fun a b => a * 256 + byte_to_Z b) l acc.

Definition be_value (l : list byte) : Z := be_acc 0 l.

(** Number of binary digits of a non-negative integer; the measure under
    which the division loops below terminate. *)
Definition bits (v : Z) : nat := Z.to_nat (Z.log2_up (v + 1)).

(** ** Identifier codec: [encodeBase58] *)

Definition base58Alphabet : string :=
  "123456789ABCDEFGHJKLMNPQRSTUVWXYZabcdefghijkmnopqrstuvwxyz".

(** [base58Alphabet[i]].  Go panics when [i] is out of range; the codec only
    indexes with a remainder of a division by 58 ([divide58_spec]), so the
    fallback character is never produced. *)
Definition alphabetAt (i : Z) : ascii :=
  match String.get (Z.to_nat i) base58Alphabet with
  | Some c => c
  | None => "000"%char
  end.

(** [for _, b := range input { if b != 0 { break }; leadingZeros++ }] *)
Fixpoint leadingZeros (input : list byte) : nat :=
  match input with
  | b :: rest => if negb (Byte.eqb b x00) then 0%nat else S (leadingZeros rest)
  | [] => 0%nat
  end.

(** [for firstNonZero < len(data) && data[firstNonZero] == 0 { firstNonZero++ }] *)
Fixpoint firstNonZero (data : list byte) : nat :=
  match data with
  | b :: rest => if Byte.eqb b x00 then S (firstNonZero rest) else 0%nat
  | [] => 0%nat
  end.

(** One turn of the inner loop of the division by 58; the state is
    [(remainder, newData)].  Go's [/] and [%] truncate toward zero. *)
Definition divideStep (st : Z * list byte) (b : byte) : Z * list byte :=
  let '(remainder, newData) := st in
  let acc := remainder * 256 + byte_to_Z b in
  let digit := Z.quot acc 58 in
  (Z.rem acc 58,
   if (0 <? length newData)%nat || (0 <? digit)
   then newData ++ [Z_to_byte digit]
   else newData).

(** [remainder := 0; newData := []; for _, b := range data { ... }] *)
Definition divide58 (data : list byte) : Z * list byte :=
  fold_left divideStep data (0, []).

(** [for i := 0; i < leadingZeros; i++ { result = append([]byte{'1'}, result...) }] *)
Fixpoint prependOnes (n : nat) (result : string) : string :=
  match n with
  | O => result
  | S n' => prependOnes n' (String "1" result)
  end.

(** *** Arithmetic of the division loop

    The facts below are what makes the loop of [encodeBase58] terminate;
    they come before the loop because its definition needs them. *)

Lemma byte_to_Z_range (b : byte) : 0 <= byte_to_Z b < 256.
Proof. unfold byte_to_Z. pose proof (Byte.to_N_bounded b). lia. Qed.

Lemma Z_to_byte_to_Z (z : Z) : 0 <= z < 256 -> byte_to_Z (Z_to_byte z) = z.
Proof.
  intros Hz. unfold Z_to_byte, byte_to_Z. rewrite Z.mod_small by lia.
  destruct (Byte.of_N (Z.to_N z)) as [b|] eqn:E; simpl.
  - apply Byte.to_of_N in E. lia.
  - apply Byte.of_N_None_iff in E. lia.
Qed.

Lemma byte_eqb_x00 (b : byte) : Byte.eqb b x00 = (byte_to_Z b =? 0).
Proof.
  destruct (Byte.eqb b x00) eqn:E.
  - apply Byte.byte_dec_bl in E. subst b. reflexivity.
  - symmetry. apply Z.eqb_neq. intros Hz. apply Byte.eqb_false in E. apply E.
    unfold byte_to_Z in Hz. assert (Hn : Byte.to_N b = 0%N) by lia.
    pose proof (Byte.of_to_N b) as Hb. rewrite Hn in Hb. simpl in Hb. congruence.
Qed.

Lemma be_acc_shift (l : list byte) (a : Z) :
  be_acc a l = a * 256 ^ Z.of_nat (length l) + be_value l.
Proof.
  unfold be_value. revert a. induction l as [|b l IH]; intros a; simpl.
  - lia.
  - rewrite IH, (IH (0 * 256 + byte_to_Z b)).
    replace (Z.of_nat (S (length l))) with (Z.succ (Z.of_nat (length l))) by lia.
    rewrite Z.pow_succ_r by lia. ring.
Qed.

Lemma be_value_snoc (l : list byte) (b : byte) :
  be_value (l ++ [b]) = be_value l * 256 + byte_to_Z b.
Proof. unfold be_value, be_acc. rewrite fold_left_app. reflexivity. Qed.

Lemma be_value_nonneg (l : list byte) : 0 <= be_value l.
Proof.
  induction l as [|b l IH] using rev_ind; [reflexivity|].
  rewrite be_value_snoc. pose proof (byte_to_Z_range b). lia.
Qed.

Lemma be_value_cons (b : byte) (l : list byte) :
  be_value (b :: l) = byte_to_Z b * 256 ^ Z.of_nat (length l) + be_value l.
Proof.
  unfold be_value at 1. simpl. rewrite be_acc_shift. reflexivity.
Qed.

(** Skipping the leading zero bytes keeps the value. *)
Lemma be_value_drop_firstNonZero (data : list byte) :
  be_value (drop (firstNonZero data) data) = be_value data.
Proof.
  induction data as [|b data IH]; simpl; [reflexivity|].
  rewrite byte_eqb_x00. destruct (Z.eqb_spec (byte_to_Z b) 0) as [Hz|Hz]; simpl.
  - rewrite IH, be_value_cons, Hz. lia.
  - reflexivity.
Qed.

(** The loop leaves by [break] exactly when the value is zero. *)
Lemma firstNonZero_all (data : list byte) :
  firstNonZero data = length data <-> be_value data = 0.
Proof.
  induction data as [|b data IH]; simpl; [easy|].
  rewrite byte_eqb_x00, be_value_cons.
  pose proof (byte_to_Z_range b). pose proof (be_value_nonneg data).
  assert (0 < 256 ^ Z.of_nat (length data)) by (apply Z.pow_pos_nonneg; lia).
  destruct (Z.eqb_spec (byte_to_Z b) 0) as [Hz|Hz].
  - rewrite Hz. split; intros Hd.
    + injection Hd as Hd. apply IH in Hd. lia.
    + f_equal. apply IH. lia.
  - split; [discriminate | nia].
Qed.

(** The division of the loop body is the division of the value: the new
    buffer holds the quotient, the remainder is in range, and no [int] or
    [byte] of the loop overflows. *)
Lemma divideStep_range (r : Z) (nd : list byte) (b : byte) :
  0 <= r < 58 ->
  let acc := r * 256 + byte_to_Z b in
  0 <= acc < 2 ^ 14 /\ 0 <= Z.quot acc 58 < 256 /\
  Z.quot acc 58 = acc / 58 /\ Z.rem acc 58 = acc mod 58.
Proof.
  intros Hr acc. pose proof (byte_to_Z_range b).
  assert (0 <= acc < 14848) by (unfold acc; lia).
  rewrite Z.quot_div_nonneg, Z.rem_mod_nonneg by lia.
  repeat split; try lia.
  - apply Z.div_pos; lia.
  - apply Z.div_lt_upper_bound; lia.
Qed.

Lemma divide_fold_spec (l : list byte) (r : Z) (nd : list byte) :
  0 <= r < 58 ->
  let st := fold_left divideStep l (r, nd) in
  be_acc (58 * be_value nd + r) l = 58 * be_value st.2 + st.1 /\ 0 <= st.1 < 58.
Proof.
  revert r nd. induction l as [|b l IH]; intros r nd Hr; simpl.
  - unfold be_acc. simpl. lia.
  - destruct (divideStep_range r nd b Hr) as (Hacc & Hdig & Hq & Hm).
    set (acc := r * 256 + byte_to_Z b) in *.
    rewrite Hq, Hm in *.
    assert (Hr' : 0 <= acc mod 58 < 58) by (apply Z.mod_pos_bound; lia).
    pose proof (Z.div_mod acc 58 ltac:(lia)) as Hdm.
    match goal with |- context [fold_left divideStep l (?r', ?nd')] =>
      specialize (IH r' nd' Hr'); simpl in IH;
      assert (Hnd : be_value nd' = be_value nd * 256 + acc / 58)
    end.
    { destruct (0 <? length nd)%nat eqn:Hlen; simpl.
      - rewrite be_value_snoc, Z_to_byte_to_Z by lia. reflexivity.
      - destruct (0 <? acc / 58) eqn:Hd.
        + rewrite be_value_snoc, Z_to_byte_to_Z by lia. reflexivity.
        + apply Nat.ltb_ge in Hlen. apply Z.ltb_ge in Hd.
          destruct nd; simpl in Hlen; [|lia]. unfold be_value, be_acc. simpl. lia. }
    rewrite Hnd in IH. destruct IH as [IH1 IH2]. split; [|exact IH2].
    rewrite <- IH1. unfold be_acc. simpl. f_equal. unfold acc in *. lia.
Qed.

Lemma divide58_spec (data : list byte) :
  be_value (divide58 data).2 = be_value data / 58 /\
  (divide58 data).1 = be_value data mod 58.
Proof.
  destruct (divide_fold_spec data 0 [] ltac:(lia)) as [Hv Hr].
  fold (divide58 data) in Hv, Hr.
  change (58 * be_value [] + 0) with 0 in Hv. fold (be_value data) in Hv.
  split.
  - apply (Z.div_unique _ _ _ (divide58 data).1); lia.
  - apply (Z.mod_unique _ _ (be_value (divide58 data).2)); lia.
Qed.

Lemma bits_div58 (v : Z) : 0 < v -> (bits (v / 58) < bits v)%nat.
Proof.
  intros Hv. unfold bits.
  pose proof (Z.log2_up_spec (v + 1) ltac:(lia)) as [_ Hup].
  pose proof (Z.log2_up_pos (v + 1) ltac:(lia)) as Hk.
  set (k := Z.log2_up (v + 1)) in *.
  assert (Hq : 0 <= v / 58) by (apply Z.div_pos; lia).
  pose proof (Z.mul_div_le v 58 ltac:(lia)) as Hmul.
  assert (Hle : Z.log2_up (v / 58 + 1) <= k - 1).
  { apply Z.log2_up_le_pow2; [lia|].
    replace k with (Z.succ (k - 1)) in Hup by lia.
    rewrite Z.pow_succ_r in Hup by lia. lia. }
  pose proof (Z.log2_up_nonneg (v / 58 + 1)). lia.
Qed.

Lemma encodeLoop_decreases (data : list byte) :
  firstNonZero data <> length data ->
  (bits (be_value (divide58 (drop (firstNonZero data) data)).2)
   < bits (be_value data))%nat.
Proof.
  intros Hnz. destruct (divide58_spec (drop (firstNonZero data) data)) as [Hq _].
  rewrite Hq, be_value_drop_firstNonZero. apply bits_div58.
  pose proof (be_value_nonneg data). pose proof (firstNonZero_all data). lia.
Qed.

(** *** The encoder *)

(** Case analysis that keeps the equation, for the guards of the loops. *)
Definition inspect {A : Type} (a : A) : {b : A | a = b} := exist _ a eq_refl.

(** The outer loop, [for len(data) > 0 { ... }], with [result] as an
    accumulator.  The buffer shrinks in value at every turn. *)
Equations? encodeLoop (data : list byte) (result : string) : string
  by wf (bits (be_value data)) lt :=
  encodeLoop [] result := result;
  encodeLoop (b :: tl) result
    with inspect (firstNonZero (b :: tl) =? length (b :: tl))%nat := {
    | exist _ true _ => result
    | exist _ false Hnz =>
        let data := drop (firstNonZero (b :: tl)) (b :: tl) in
        let remainder := (divide58 data).1 in
        let newData := (divide58 data).2 in
        encodeLoop newData (String (alphabetAt remainder) result) }.
Proof.
  apply Nat.eqb_neq in Hnz. exact (encodeLoop_decreases (b :: tl) Hnz).
Qed.

(** [encodeBase58(input)] *)
Definition encodeBase58 (input : list byte) : string :=
  prependOnes (leadingZeros input) (encodeLoop input "").

(** The encoding as the specification words it, to compare [encodeLoop]
    with: the input read as a big-endian unsigned integer [v], divided by 58
    until it is zero, the character of each remainder put in front. *)
Equations? spec_base58Digits (v : Z) (acc : string) : string by wf (bits v) lt :=
  spec_base58Digits v acc with inspect (0 <? v) := {
    | exist _ true Hv => spec_base58Digits (v / 58) (String (alphabetAt (v mod 58)) acc)
    | exist _ false _ => acc }.
Proof. apply bits_div58. lia. Qed.

(** [n] copies of the zero symbol ['1']. *)
Fixpoint ones (n : nat) : string :=
  match n with
  | O => ""
  | S n' => String "1" (ones n')
  end.

(** ** SHA-256

    [crypto/sha256] belongs to Go's standard library.  [Sum256] is the hash
    of FIPS 180-4, modelled here on 32-bit words held in [Z] and checked on
    the test vectors of the standard in [Sum256_vectors]. *)

Module SHA256.

Definition add32 (x y : Z) : Z := (x + y) mod 2 ^ 32.

Definition rotr (n x : Z) : Z :=
  Z.lor (Z.shiftr x n) (Z.shiftl x (32 - n) mod 2 ^ 32).

Definition Ch (x y z : Z) : Z :=
  Z.lxor (Z.land x y) (Z.land (Z.lxor x 0xffffffff) z).

Definition Maj (x y z : Z) : Z :=
  Z.lxor (Z.lxor (Z.land x y) (Z.land x z)) (Z.land y z).

Definition Sigma0 (x : Z) : Z := Z.lxor (Z.lxor (rotr 2 x) (rotr 13 x)) (rotr 22 x).
Definition Sigma1 (x : Z) : Z := Z.lxor (Z.lxor (rotr 6 x) (rotr 11 x)) (rotr 25 x).
Definition sigma0 (x : Z) : Z := Z.lxor (Z.lxor (rotr 7 x) (rotr 18 x)) (Z.shiftr x 3).
Definition sigma1 (x : Z) : Z := Z.lxor (Z.lxor (rotr 17 x) (rotr 19 x)) (Z.shiftr x 10).

(** The constants of the standard are taken from the first primes: a round
    constant is the first 32 bits of the fractional part of the cube root
    of a prime, an initial word that of its square root. *)
Definition isPrime (n : Z) : bool :=
  (1 <? n) && forallb (fun d => negb (n mod d =? 0))
                      (map Z.of_nat (seq 2 (Z.to_nat n - 2))).

Definition primes (k : nat) : list Z :=
  take k (List.filter isPrime (map Z.of_nat (seq 2 310))).

(** Integer cube root, one binary digit at a time from bit [i - 1] down. *)
Fixpoint cbrtBits (i : nat) (n r : Z) : Z :=
  match i with
  | O => r
  | S i' =>
      let c := r + 2 ^ Z.of_nat i' in
      cbrtBits i' n (if c * c * c <=? n then c else r)
  end.

Definition K : list Z :=
  Eval vm_compute in
    map (fun p => cbrtBits 36 (p * 2 ^ 96) 0 mod 2 ^ 32) (primes 64).

(** The eight working words. *)
Record state := State { sa : Z; sb : Z; sc : Z; sd : Z; se : Z; sf : Z; sg : Z; sh : Z }.

Definition initWords : list Z :=
  Eval vm_compute in map (fun p => Z.sqrt (p * 2 ^ 64) mod 2 ^ 32) (primes 8).

Definition init : state :=
  match initWords with
  | [a; b; c; d; e; f; g; h] => State a b c d e f g h
  | _ => State 0 0 0 0 0 0 0 0
  end.

(** Padding: the bit [1], zeros up to 56 modulo 64 bytes, then the length
    of the message in bits as a 64-bit big-endian integer. *)
Definition be_bytes (n : nat) (v : Z) : list byte :=
  map (fun i => Z_to_byte (Z.shiftr v (8 * Z.of_nat i))) (rev (seq 0 n)).

Definition pad (msg : list byte) : list byte :=
  let len := Z.of_nat (length msg) in
  msg ++ [x80] ++ repeat x00 (Z.to_nat ((55 - len) mod 64))
      ++ be_bytes 8 ((8 * len) mod 2 ^ 64).

(** The sixteen big-endian words of a 64-byte block. *)
Fixpoint words (n : nat) (block : list byte) : list Z :=
  match n with
  | O => []
  | S n' => be_value (take 4 block) :: words n' (drop 4 block)
  end.

(** The message schedule: [n] more words after those of [w]. *)
Fixpoint schedule (n : nat) (w : list Z) : list Z :=
  match n with
  | O => w
  | S n' =>
      let t := length w in
      let at_ i := nth (t - i) w 0 in
      schedule n' (w ++ [add32 (add32 (add32 (sigma1 (at_ 2%nat)) (at_ 7%nat))
                                      (sigma0 (at_ 15%nat))) (at_ 16%nat)])
  end.

Definition round (s : state) (kw : Z * Z) : state :=
  let t1 := add32 (add32 (add32 (add32 (sh s) (Sigma1 (se s)))
                                (Ch (se s) (sf s) (sg s))) kw.1) kw.2 in
  let t2 := add32 (Sigma0 (sa s)) (Maj (sa s) (sb s) (sc s)) in
  State (add32 t1 t2) (sa s) (sb s) (sc s) (add32 (sd s) t1) (se s) (sf s) (sg s).

Definition compress (s : state) (block : list byte) : state :=
  let w := schedule 48 (words 16 block) in
  let r := fold_left round (combine K w) s in
  State (add32 (sa s) (sa r)) (add32 (sb s) (sb r)) (add32 (sc s) (sc r))
        (add32 (sd s) (sd r)) (add32 (se s) (se r)) (add32 (sf s) (sf r))
        (add32 (sg s) (sg r)) (add32 (sh s) (sh r)).

(** [n] blocks of 64 bytes, one after the other. *)
Fixpoint blocks (n : nat) (msg : list byte) (s : state) : state :=
  match n with
  | O => s
  | S n' => blocks n' (drop 64 msg) (compress s (take 64 msg))
  end.

Definition digest (s : state) : list byte :=
  be_bytes 4 (sa s) ++ be_bytes 4 (sb s) ++ be_bytes 4 (sc s) ++ be_bytes 4 (sd s) ++
  be_bytes 4 (se s) ++ be_bytes 4 (sf s) ++ be_bytes 4 (sg s) ++ be_bytes 4 (sh s).

(** [sha256.Sum256(data)], a [[32]byte]. *)
Definition Sum256 (data : list byte) : list byte :=
  let m := pad data in
  digest (blocks (length m / 64) m init).

End SHA256.

(** ** Storage client contract: [IPFSClient], [AddResponse] *)

(** [AddResponse], the reply of the add endpoint. *)
Record AddResponse := mkAddResponse {
  Name : string;
  IPFSHash : string;
  Size : string }.

(** A Go [error] value, by the message [%v] prints; [nil] is [None]. *)
Definition error : Type := string.

(** [IPFSClient].  A method takes the client and returns it with its
    results, as Go returns them: [Upload] a pointer that may be [nil] and an
    error, [Get] a slice and an error.  The [context.Context] argument is
    left out: the mock client ignores it. *)
Class IPFSClient (C : Type) := {
  Upload : C -> list byte -> string -> (option AddResponse * option error) * C;
  Get : C -> string -> (list byte * option error) * C;
  Pin : C -> string -> option error * C;
  Unpin : C -> string -> option error * C;
  GetGatewayURL : C -> string -> string * C }.

(** ** In-memory client: [MockClient] *)

(** [copy(dst, src)]: the first [min(len(dst), len(src))] elements. *)
Definition copy (dst src : list byte) : list byte :=
  let n := Nat.min (length dst) (length src) in
  take n src ++ drop n dst.

Module MockClient.

Record t := mk {
  storage : gmap string (list byte);
  pins : gmap string bool;
  gatewayURL : string }.

Definition NewMockClient (gatewayURL : string) : t :=
  let gatewayURL :=
    if decide (gatewayURL = "") then "https://ipfs.io/ipfs" else gatewayURL in
  {| storage := ∅; pins := ∅; gatewayURL := gatewayURL |}.

(** The multihash built by [Upload]: [make([]byte, 34)], two tag bytes,
    then the digest copied behind them. *)
Definition multihashOf (data : list byte) : list byte :=
  let hash := SHA256.Sum256 data in
  let multihash := replicate 34 x00 in
  let multihash := <[0%nat := x12]> multihash in
  let multihash := <[1%nat := x20]> multihash in
  take 2 multihash ++ copy (drop 2 multihash) hash.

(** [c.storage[cid] = data] keeps the slice it was given.  Byte sequences
    are values here: a caller that writes to its buffer after the call is
    not modelled. *)
Definition Upload (c : t) (data : list byte) (filename : string)
  : (option AddResponse * option error) * t :=
  let cid := encodeBase58 (multihashOf data) in
  let c' := {| storage := <[cid := data]> (storage c);
               pins := pins c;
               gatewayURL := gatewayURL c |} in
  ((Some {| Name := filename;
            IPFSHash := cid;
            Size := pretty (length data) |}, None), c').

Definition Get (c : t) (cid : string) : (list byte * option error) * t :=
  match storage c !! cid with
  | Some data => ((data, None), c)
  | None =>
      (([], Some ("content not found: " +:+ cid
                  +:+ " (mock storage was likely reset)")), c)
  end.

Definition Pin (c : t) (cid : string) : option error * t :=
  (None, {| storage := storage c;
            pins := <[cid := true]> (pins c);
            gatewayURL := gatewayURL c |}).

Definition Unpin (c : t) (cid : string) : option error * t :=
  (None, {| storage := storage c;
            pins := delete cid (pins c);
            gatewayURL := gatewayURL c |}).

Definition GetGatewayURL (c : t) (cid : string) : string :=
  gatewayURL c +:+ "/" +:+ cid.

(** [c.pins[cid]]: the zero value [false] for a missing key. *)
Definition IsPinned (c : t) (cid : string) : bool :=
  default false (pins c !! cid).

(** [GetStoredCIDs] appends the keys of [c.storage] in the order of a
    [range] over the map, which Go leaves unspecified: every order of the
    keys is a possible result.  [storedCIDs] is one of them. *)
Definition storedCIDs (c : t) : list string := (map_to_list (storage c)).*1.

Definition GetStoredCIDs (c : t) (cids : list string) : Prop :=
  cids ≡ₚ storedCIDs c.

End MockClient.

(** [MockClient] implements [IPFSClient]. *)
#[export] Instance MockClient_IPFSClient : IPFSClient MockClient.t := {|
  Upload := MockClient.Upload;
  Get := MockClient.Get;
  Pin := MockClient.Pin;
  Unpin := MockClient.Unpin;
  GetGatewayURL := fun c cid => (MockClient.GetGatewayURL c cid, c) |}.

(** ** Library types and functions the handlers use

    [strconv], [codes], [status] and the generated message types [pb] are
    not part of the repository.  [strconv.ParseInt] follows the standard
    library for the arguments the server passes (base 10, 64 bits); the
    messages carry the fields the handlers read and write. *)

Module strconv.

Inductive NumError := ErrSyntax | ErrRange.

Definition uint64 (z : Z) : Z := z mod 2 ^ 64.
Definition int64 (z : Z) : Z := (z + 2 ^ 63) mod 2 ^ 64 - 2 ^ 63.
Definition maxUint64 : Z := 2 ^ 64 - 1.

Definition code (c : ascii) : Z := Z.of_N (N_of_ascii c).

(** [lower(c)]: [c | ('x' - 'X')]. *)
Definition lower (c : Z) : Z := Z.lor c 0x20.

(** The [switch] on a character of [ParseUint]; [None] is its [default]
    branch. *)
Definition digitVal (c : Z) : option Z :=
  if (48 <=? c) && (c <=? 57) then Some (c - 48)
  else if (97 <=? lower c) && (lower c <=? 122) then Some (lower c - 97 + 10)
  else None.

(** [for _, c := range []byte(s) { ... }] of [ParseUint], for a base that
    is not 0 (no underscores). *)
Fixpoint parseUintLoop (base maxVal cutoff : Z) (s : string) (n : Z)
  : Z * option NumError :=
  match s with
  | EmptyString => (n, None)
  | String c rest =>
      match digitVal (code c) with
      | None => (0, Some ErrSyntax)
      | Some d =>
          if base <=? d then (0, Some ErrSyntax)
          else if cutoff <=? n then (maxVal, Some ErrRange)
          else
            let n := uint64 (n * base) in
            let n1 := uint64 (n + d) in
            if (n1 <? n) || (maxVal <? n1) then (maxVal, Some ErrRange)
            else parseUintLoop base maxVal cutoff rest n1
      end
  end.

Definition ParseUint (s : string) (base bitSize : Z) : Z * option NumError :=
  match s with
  | EmptyString => (0, Some ErrSyntax)
  | _ =>
      let cutoff := maxUint64 / base + 1 in
      let maxVal := uint64 (uint64 (Z.shiftl 1 bitSize) - 1) in
      parseUintLoop base maxVal cutoff s 0
  end.

Definition ParseInt (s : string) (base bitSize : Z) : Z * option NumError :=
  match s with
  | EmptyString => (0, Some ErrSyntax)
  | String c rest =>
      let neg := Ascii.eqb c "-" in
      let s' := if Ascii.eqb c "+" || Ascii.eqb c "-" then rest else s in
      let '(un, err) := ParseUint s' base bitSize in
      match err with
      | Some ErrSyntax => (0, err)
      | _ =>
          let cutoff := uint64 (Z.shiftl 1 (bitSize - 1)) in
          if negb neg && (cutoff <=? un) then (int64 (cutoff - 1), Some ErrRange)
          else if neg && (cutoff <? un) then (int64 (- int64 cutoff), Some ErrRange)
          else
            let n := int64 un in
            (if neg then int64 (- n) else n, None)
      end
  end.

(** [Atoi(s)]: [ParseInt(s, 10, 0)] converted to [int], an [int] being 64
    bits wide; the fast path of the library for short strings returns the
    same results. *)
Definition Atoi (s : string) : Z * option NumError := ParseInt s 10 64.

End strconv.

Module codes.
Inductive Code :=
| OK | Canceled | Unknown | InvalidArgument | DeadlineExceeded | NotFound
| AlreadyExists | PermissionDenied | ResourceExhausted | FailedPrecondition
| Aborted | OutOfRange | Unimplemented | Internal | Unavailable | DataLoss
| Unauthenticated.
End codes.

Module status.
Record Status := mk { Code : codes.Code; Message : string }.

(** [status.Error(c, msg)] *)
Definition Error (c : codes.Code) (msg : string) : Status := mk c msg.

(** [status.Errorf(c, prefix + "%v", err)] *)
Definition Errorf (c : codes.Code) (prefix : string) (err : error) : Status :=
  mk c (prefix +:+ err).
End status.

Module pb.
Module UploadContentRequest.
Record t := mk { Data : list byte; Filename : string }.
End UploadContentRequest.
Module UploadContentResponse.
Record t := mk { Cid : string; SizeBytes : Z }.
End UploadContentResponse.
Module UploadProtoRequest.
Record t := mk { ProtoData : list byte; ProtoType : string }.
End UploadProtoRequest.
Module UploadProtoResponse.
Record t := mk { Cid : string; SizeBytes : Z }.
End UploadProtoResponse.
Module GetContentRequest.
Record t := mk { Cid : string }.
End GetContentRequest.
Module GetContentResponse.
Record t := mk { Data : list byte; SizeBytes : Z }.
End GetContentResponse.
Module GetProtoRequest.
Record t := mk { Cid : string }.
End GetProtoRequest.
Module GetProtoResponse.
Record t := mk { ProtoData : list byte }.
End GetProtoResponse.
Module PinContentRequest.
Record t := mk { Cid : string }.
End PinContentRequest.
Module PinContentResponse.
Record t := mk { Success : bool }.
End PinContentResponse.
Module UnpinContentRequest.
Record t := mk { Cid : string }.
End UnpinContentRequest.
Module UnpinContentResponse.
Record t := mk { Success : bool }.
End UnpinContentResponse.
Module GetGatewayURLRequest.
Record t := mk { Cid : string }.
End GetGatewayURLRequest.
Module GetGatewayURLResponse.
Record t := mk { Url : string }.
End GetGatewayURLResponse.
End pb.

(** ** gRPC translation layer: [GRPCServer] *)

(** What a handler returns: a response with a [nil] error, or [nil] with a
    status error.  [NilDeref] is the run-time panic of reading a field of a
    [nil] [*AddResponse], which a client can cause by returning neither a
    response nor an error. *)
Inductive Reply (A : Type) :=
| Ok (resp : A)
| Fail (st : status.Status)
| NilDeref.
Arguments Ok {A} resp.
Arguments Fail {A} st.
Arguments NilDeref {A}.

Module GRPCServer.

(** [filename := req.Filename; if filename == "" { filename = "content" }] *)
Definition contentFilename (filename : string) : string :=
  if String.eqb filename "" then "content" else filename.

(** [filename := fmt.Sprintf("%s.pb", req.ProtoType);
     if req.ProtoType == "" { filename = "data.pb" }] *)
Definition protoFilename (protoType : string) : string :=
  let filename := protoType +:+ ".pb" in
  if String.eqb protoType "" then "data.pb" else filename.

Section Handlers.
Context {C : Type} `{!IPFSClient C}.

(** The server holds its client; a handler returns its reply and the
    client as the call left it. *)

Definition UploadContent (s : C) (req : pb.UploadContentRequest.t)
  : Reply pb.UploadContentResponse.t * C :=
  if (length (pb.UploadContentRequest.Data req) =? 0)%nat then
    (Fail (status.Error codes.InvalidArgument "data is required"), s)
  else
    let filename := contentFilename (pb.UploadContentRequest.Filename req) in
    let '((result, err), s) := Upload s (pb.UploadContentRequest.Data req) filename in
    match err, result with
    | Some e, _ =>
        (Fail (status.Errorf codes.Internal "failed to upload content: " e), s)
    | None, None => (NilDeref, s)
    | None, Some result =>
        let size := (strconv.ParseInt (Size result) 10 64).1 in
        (Ok (pb.UploadContentResponse.mk (IPFSHash result) size), s)
    end.

Definition UploadProto (s : C) (req : pb.UploadProtoRequest.t)
  : Reply pb.UploadProtoResponse.t * C :=
  if (length (pb.UploadProtoRequest.ProtoData req) =? 0)%nat then
    (Fail (status.Error codes.InvalidArgument "proto_data is required"), s)
  else
    let filename := protoFilename (pb.UploadProtoRequest.ProtoType req) in
    let '((result, err), s) := Upload s (pb.UploadProtoRequest.ProtoData req) filename in
    match err, result with
    | Some e, _ =>
        (Fail (status.Errorf codes.Internal "failed to upload proto: " e), s)
    | None, None => (NilDeref, s)
    | None, Some result =>
        let size := (strconv.ParseInt (Size result) 10 64).1 in
        (Ok (pb.UploadProtoResponse.mk (IPFSHash result) size), s)
    end.

(** [len(data)] is an [int]; its conversion to [int64] keeps it. *)
Definition GetContent (s : C) (req : pb.GetContentRequest.t)
  : Reply pb.GetContentResponse.t * C :=
  if String.eqb (pb.GetContentRequest.Cid req) "" then
    (Fail (status.Error codes.InvalidArgument "cid is required"), s)
  else
    let '((data, err), s) := Get s (pb.GetContentRequest.Cid req) in
    match err with
    | Some e => (Fail (status.Errorf codes.NotFound "failed to get content: " e), s)
    | None => (Ok (pb.GetContentResponse.mk data (Z.of_nat (length data))), s)
    end.

Definition GetProto (s : C) (req : pb.GetProtoRequest.t)
  : Reply pb.GetProtoResponse.t * C :=
  if String.eqb (pb.GetProtoRequest.Cid req) "" then
    (Fail (status.Error codes.InvalidArgument "cid is required"), s)
  else
    let '((data, err), s) := Get s (pb.GetProtoRequest.Cid req) in
    match err with
    | Some e => (Fail (status.Errorf codes.NotFound "failed to get proto: " e), s)
    | None => (Ok (pb.GetProtoResponse.mk data), s)
    end.

Definition PinContent (s : C) (req : pb.PinContentRequest.t)
  : Reply pb.PinContentResponse.t * C :=
  if String.eqb (pb.PinContentRequest.Cid req) "" then
    (Fail (status.Error codes.InvalidArgument "cid is required"), s)
  else
    let '(err, s) := Pin s (pb.PinContentRequest.Cid req) in
    match err with
    | Some e => (Fail (status.Errorf codes.Internal "failed to pin content: " e), s)
    | None => (Ok (pb.PinContentResponse.mk true), s)
    end.

Definition UnpinContent (s : C) (req : pb.UnpinContentRequest.t)
  : Reply pb.UnpinContentResponse.t * C :=
  if String.eqb (pb.UnpinContentRequest.Cid req) "" then
    (Fail (status.Error codes.InvalidArgument "cid is required"), s)
  else
    let '(err, s) := Unpin s (pb.UnpinContentRequest.Cid req) in
    match err with
    | Some e => (Fail (status.Errorf codes.Internal "failed to unpin content: " e), s)
    | None => (Ok (pb.UnpinContentResponse.mk true), s)
    end.

Definition GetGatewayURL (s : C) (req : pb.GetGatewayURLRequest.t)
  : Reply pb.GetGatewayURLResponse.t * C :=
  if String.eqb (pb.GetGatewayURLRequest.Cid req) "" then
    (Fail (status.Error codes.InvalidArgument "cid is required"), s)
  else
    let '(url, s) := GetGatewayURL s (pb.GetGatewayURLRequest.Cid req) in
    (Ok (pb.GetGatewayURLResponse.mk url), s).

End Handlers.
End GRPCServer.

(** ** A scripted client

    A test double for the handlers: it answers every call with the reply it
    was built with and keeps the list of the calls it received. *)

Module SpyClient.

Inductive Call :=
| UploadCall (data : list byte) (filename : string)
| GetCall (cid : string)
| PinCall (cid : string)
| UnpinCall (cid : string)
| GetGatewayURLCall (cid : string).

Record t := mk {
  uploadReply : option AddResponse * option error;
  getReply : list byte * option error;
  pinReply : option error;
  unpinReply : option error;
  urlReply : string;
  calls : list Call }.

Definition record (c : t) (k : Call) : t :=
  mk (uploadReply c) (getReply c) (pinReply c) (unpinReply c) (urlReply c)
     (calls c ++ [k]).

Definition fresh (up : option AddResponse * option error)
    (get : list byte * option error) (pin unpin : option error) : t :=
  mk up get pin unpin "" [].

End SpyClient.

#[export] Instance SpyClient_IPFSClient : IPFSClient SpyClient.t := {|
  Upload := fun c data filename =>
    (SpyClient.uploadReply c, SpyClient.record c (SpyClient.UploadCall data filename));
  Get := fun c cid =>
    (SpyClient.getReply c, SpyClient.record c (SpyClient.GetCall cid));
  Pin := fun c cid =>
    (SpyClient.pinReply c, SpyClient.record c (SpyClient.PinCall cid));
  Unpin := fun c cid =>
    (SpyClient.unpinReply c, SpyClient.record c (SpyClient.UnpinCall cid));
  GetGatewayURL := fun c cid =>
    (SpyClient.urlReply c, SpyClient.record c (SpyClient.GetGatewayURLCall cid)) |}.

(** ** Remote client: [BlockfrostClient]

    [Upload], [Get], [Pin] and [Unpin] of the remote client are HTTP
    exchanges and are not modelled.  What is modelled is its construction
    and the one method that needs no network. *)

Module BlockfrostClient.

(** [time.Second], a [time.Duration] in nanoseconds. *)
Definition Second : Z := 1000000000.

(** [BlockfrostConfig] *)
Record Config := mkConfig {
  ProjectID : string;
  BaseURL : string;
  GatewayURL : string;
  Timeout : Z }.

(** [BlockfrostClient]; [timeout] is the [Timeout] of its [http.Client]. *)
Record t := mk {
  projectID : string;
  baseURL : string;
  gatewayURL : string;
  timeout : Z }.

Definition NewBlockfrostClient (cfg : Config) : t :=
  let timeout := Timeout cfg in
  let timeout := if timeout =? 0 then 60 * Second else timeout in
  {| projectID := ProjectID cfg;
     baseURL := BaseURL cfg;
     gatewayURL := GatewayURL cfg;
     timeout := timeout |}.

Definition GetGatewayURL (c : t) (cid : string) : string :=
  gatewayURL c +:+ "/" +:+ cid.

End BlockfrostClient.

(** ** Configuration: [config.Load] *)

Module config.

Record Config := mk {
  GRPCPort : string;
  BlockfrostProjectID : string;
  BlockfrostIPFSBaseURL : string;
  IPFSGatewayURL : string }.

(** The environment of the process.  [os.Getenv] returns the empty string
    for a variable that is not set. *)
Definition Getenv (env : gmap string string) (key : string) : string :=
  default "" (env !! key).

Definition getEnv (env : gmap string string) (key defaultValue : string) : string :=
  let value := Getenv env key in
  if negb (String.eqb value "") then value else defaultValue.

Definition getEnvInt (env : gmap string string) (key : string) (defaultValue : Z) : Z :=
  let value := Getenv env key in
  if negb (String.eqb value "") then
    match strconv.Atoi value with
    | (i, None) => i
    | (_, Some _) => defaultValue
    end
  else defaultValue.

Definition Load (env : gmap string string) : Config :=
  {| GRPCPort := getEnv env "GRPC_PORT" "9093";
     BlockfrostProjectID := getEnv env "BLOCKFROST_IPFS_PROJECT_ID" "";
     BlockfrostIPFSBaseURL :=
       getEnv env "BLOCKFROST_IPFS_BASE_URL" "https://ipfs.blockfrost.io/api/v0";
     IPFSGatewayURL := getEnv env "IPFS_GATEWAY_URL" "https://ipfs.blockfrost.dev/ipfs" |}.

End config.

(** ** Start-up: the choice of the client in [main] *)

Module main.

(** [ipfsClient] as [main] builds it from the configuration; the listener,
    the health service and the signal handling that follow are not
    modelled. *)
Definition ipfsClient (cfg : config.Config) : MockClient.t + BlockfrostClient.t :=
  if String.eqb (config.BlockfrostProjectID cfg) "" then
    inl (MockClient.NewMockClient (config.IPFSGatewayURL cfg))
  else
    inr (BlockfrostClient.NewBlockfrostClient
           (BlockfrostClient.mkConfig (config.BlockfrostProjectID cfg)
                                      (config.BlockfrostIPFSBaseURL cfg)
                                      (config.IPFSGatewayURL cfg) 0)).

(** [ipfsClient.GetGatewayURL(cid)] on whichever client was chosen. *)
Definition GetGatewayURL (client : MockClient.t + BlockfrostClient.t) (cid : string)
  : string :=
  match client with
  | inl c => MockClient.GetGatewayURL c cid
  | inr c => BlockfrostClient.GetGatewayURL c cid
  end.

End main.

(** ** Histories of the in-memory client

    A client in use is [NewMockClient] followed by calls of its methods. *)

Inductive MockOp :=
| OpUpload (data : list byte) (filename : string)
| OpGet (cid : string)
| OpPin (cid : string)
| OpUnpin (cid : string).

Definition runOp (c : MockClient.t) (op : MockOp) : MockClient.t :=
  match op with
  | OpUpload data filename => (MockClient.Upload c data filename).2
  | OpGet cid => (MockClient.Get c cid).2
  | OpPin cid => (MockClient.Pin c cid).2
  | OpUnpin cid => (MockClient.Unpin c cid).2
  end.

Definition runOps (c : MockClient.t) (ops : list MockOp) : MockClient.t :=
  fold_left runOp ops c.

(** ** Reading an identifier back

    The service has no decoder.  The two functions below read a base58
    string back as a number; they are used to show that [encodeBase58]
    loses nothing. *)

(** Position of a character in a string, counted from [i]. *)
Fixpoint indexFrom (s : string) (c : ascii) (i : Z) : Z :=
  match s with
  | EmptyString => i
  | String a s' => if Ascii.eqb a c then i else indexFrom s' c (i + 1)
  end.

Definition alphabetIndex (c : ascii) : Z := indexFrom base58Alphabet c 0.

(** The number a string of base58 digits denotes, most significant first. *)
Fixpoint digitsValue (s : string) (acc : Z) : Z :=
  match s with
  | EmptyString => acc
  | String c s' => digitsValue s' (acc * 58 + alphabetIndex c)
  end.

(** * Properties *)

(** ** Identifier codec *)

Lemma encodeLoop_eq (data : list byte) (result : string) :
  encodeLoop data result =
  if (firstNonZero data =? length data)%nat then result
  else let d := drop (firstNonZero data) data in
       encodeLoop (divide58 d).2 (String (alphabetAt (divide58 d).1) result).
Proof.
  destruct data as [|b tl]; [reflexivity|].
  rewrite encodeLoop_equation_2.
  change (firstNonZero (b :: tl) =? length (b :: tl))%nat
    with (proj1_sig (inspect (firstNonZero (b :: tl) =? length (b :: tl))%nat)) at 2.
  generalize (inspect (firstNonZero (b :: tl) =? length (b :: tl))%nat).
  intros [[|] E]; reflexivity.
Qed.

Lemma spec_base58Digits_eq (v : Z) (acc : string) :
  spec_base58Digits v acc =
  if 0 <? v then spec_base58Digits (v / 58) (String (alphabetAt (v mod 58)) acc)
  else acc.
Proof.
  rewrite spec_base58Digits_equation_1.
  change (0 <? v) with (proj1_sig (inspect (0 <? v))) at 2.
  generalize (inspect (0 <? v)). intros [[|] E]; reflexivity.
Qed.

(** The loop of the code computes the digits of the value of its buffer. *)
Lemma encodeLoop_digits (data : list byte) (result : string) :
  encodeLoop data result = spec_base58Digits (be_value data) result.
Proof.
  remember (bits (be_value data)) as n eqn:Hn.
  revert data result Hn.
  induction n as [n IH] using lt_wf_ind. intros data result ->.
  rewrite encodeLoop_eq, spec_base58Digits_eq.
  destruct (Nat.eqb_spec (firstNonZero data) (length data)) as [Hall|Hnz].
  - apply firstNonZero_all in Hall. rewrite Hall. reflexivity.
  - pose proof (encodeLoop_decreases data Hnz) as Hdec.
    destruct (divide58_spec (drop (firstNonZero data) data)) as [Hq Hr].
    rewrite be_value_drop_firstNonZero in Hq, Hr.
    assert (Hpos : 0 < be_value data).
    { pose proof (be_value_nonneg data). pose proof (firstNonZero_all data). lia. }
    apply Z.ltb_lt in Hpos as Hpos'. rewrite Hpos'. cbv zeta.
    rewrite (IH _ Hdec _ _ eq_refl), Hq, Hr. reflexivity.
Qed.

(** Known vectors: the codec on hand-made inputs, and the identifier of the
    empty payload, whose digest is [e3b0c442...7852b855]. *)
Example encodeBase58_vectors :
  encodeBase58 [x00; x00; x01; x02; x03] = "11Ldp" /\
  encodeBase58 [x00; xff; xff] = "1LUv" /\
  encodeBase58 [x3a] = "21" /\
  encodeBase58 [x00; x00; x00] = "111".
Proof. vm_compute. repeat split. Qed.

Example Sum256_vectors :
  map byte_to_Z (take 4 (SHA256.Sum256 [])) = [0xe3; 0xb0; 0xc4; 0x42] /\
  map byte_to_Z (drop 28 (SHA256.Sum256 [])) = [0x78; 0x52; 0xb8; 0x55] /\
  map byte_to_Z (take 4 (SHA256.Sum256 [x61; x62; x63])) = [0xba; 0x78; 0x16; 0xbf] /\
  map byte_to_Z (take 4 (SHA256.Sum256 (repeat x61 119))) = [0x31; 0xeb; 0xa5; 0x1c].
Proof. vm_compute. repeat split. Qed.

Example SHA256_constants :
  length SHA256.K = 64%nat /\
  take 2 SHA256.K = [0x428a2f98; 0x71374491] /\
  drop 62 SHA256.K = [0xbef9a3f7; 0xc67178f2] /\
  SHA256.sa SHA256.init = 0x6a09e667 /\ SHA256.sh SHA256.init = 0x5be0cd19.
Proof. vm_compute. repeat split. Qed.

Example Upload_example :
  (MockClient.Upload (MockClient.NewMockClient "") [x61; x62; x63] "abc.txt").1
  = (Some (mkAddResponse "abc.txt" "QmatYkNGZnELf8cAGdyJpUca2PyY4szai3RHyyWofNY1pY" "3"),
     None) /\
  (GRPCServer.UploadContent (MockClient.NewMockClient "")
     (pb.UploadContentRequest.mk (repeat x61 12) "")).1
  = Ok (pb.UploadContentResponse.mk "QmeeTU8WjoAVWKcDKSfjYfpr6yHTkuxvmHCwkXKJpE7pgL" 12).
Proof. vm_compute. repeat split. Qed.

Example empty_payload_identifier :
  encodeBase58 (MockClient.multihashOf [])
  = "QmdfTbBqBPQ7VNxZEYEj14VmRuZBkqFbiwReogJgS1zR1n".
Proof. vm_compute. reflexivity. Qed.

Lemma append_cons (c : ascii) (s t : string) :
  String c s +:+ t = String c (s +:+ t).
Proof. reflexivity. Qed.

Lemma ones_snoc (n : nat) (s : string) :
  ones n +:+ String "1" s = String "1" (ones n +:+ s).
Proof.
  induction n as [|n IH]; [reflexivity|].
  cbn [ones]. rewrite !append_cons, IH. reflexivity.
Qed.

Lemma prependOnes_ones (n : nat) (s : string) : prependOnes n s = ones n +:+ s.
Proof.
  revert s. induction n as [|n IH]; intros s; [reflexivity|].
  cbn [prependOnes ones]. rewrite IH, append_cons. apply ones_snoc.
Qed.

Lemma leadingZeros_replicate (n : nat) (rest : list byte) :
  head rest <> Some x00 -> leadingZeros (replicate n x00 ++ rest) = n.
Proof.
  intros Hh. induction n as [|n IH]; simpl.
  - destruct rest as [|b rest]; [reflexivity|]. simpl.
    destruct (Byte.eqb b x00) eqn:E; [|reflexivity].
    apply Byte.byte_dec_bl in E. subst b. contradiction.
  - rewrite IH. reflexivity.
Qed.

Lemma be_value_zero_cons (l : list byte) : be_value (x00 :: l) = be_value l.
Proof. rewrite be_value_cons. change (byte_to_Z x00) with 0. lia. Qed.

Lemma be_value_replicate_zeros (n : nat) (l : list byte) :
  be_value (replicate n x00 ++ l) = be_value l.
Proof.
  induction n as [|n IH]; simpl; [reflexivity|].
  rewrite be_value_zero_cons. exact IH.
Qed.

(** Only index 0 of the alphabet holds the zero symbol. *)
Lemma alphabetAt_one (d : Z) : 0 <= d < 58 -> alphabetAt d = "1"%char -> d = 0.
Proof.
  intros Hd Hc.
  assert (exists n, (n < 58)%nat /\ d = Z.of_nat n) as (n & Hn & ->)
    by (exists (Z.to_nat d); lia).
  clear Hd. revert Hc.
  do 58 (destruct n as [|n]; [vm_compute; intros Hc; (reflexivity || discriminate Hc)|]).
  lia.
Qed.

(** The digits of a positive value start with a non-zero digit. *)
Lemma spec_base58Digits_head (v : Z) (acc : string) :
  0 < v ->
  exists d s, 1 <= d < 58 /\ spec_base58Digits v acc = String (alphabetAt d) s.
Proof.
  remember (bits v) as n eqn:Hn. revert v acc Hn.
  induction n as [n IH] using lt_wf_ind. intros v acc -> Hv.
  rewrite spec_base58Digits_eq. apply Z.ltb_lt in Hv as Hv'. rewrite Hv'.
  destruct (Z.eq_dec (v / 58) 0) as [Hq|Hq].
  - rewrite Hq, spec_base58Digits_eq. simpl.
    exists (v mod 58), acc. split; [|reflexivity].
    pose proof (Z.div_mod v 58 ltac:(lia)). pose proof (Z.mod_pos_bound v 58 ltac:(lia)).
    lia.
  - apply (IH _ (bits_div58 v Hv) _ _ eq_refl).
    pose proof (Z.div_pos v 58 ltac:(lia) ltac:(lia)). lia.
Qed.

Lemma spec_base58Digits_zero (acc : string) : spec_base58Digits 0 acc = acc.
Proof. rewrite spec_base58Digits_eq. reflexivity. Qed.

(** C2.  For an input made of [n] zero bytes followed by a rest that does
    not start with a zero byte, [encodeBase58] returns [n] characters ['1']
    followed by the base-58 digits of the input read as a big-endian
    integer (repeated division by 58, remainder characters put in front),
    and these digits do not start with ['1'], so the count is exact.  The
    empty input gives the empty string, and a leading zero byte gives a
    leading ['1'] instead of being dropped. *)
Theorem encodeBase58_spec (n : nat) (rest : list byte) :
  head rest <> Some x00 ->
  let input := replicate n x00 ++ rest in
  encodeBase58 input = ones n +:+ spec_base58Digits (be_value input) "" /\
  (forall s, spec_base58Digits (be_value input) "" <> String "1" s) /\
  encodeBase58 [] = "" /\
  (forall tl, encodeBase58 (x00 :: tl) = String "1" (encodeBase58 tl)).
Proof.
  intros Hh input. repeat split.
  - unfold encodeBase58, input.
    rewrite leadingZeros_replicate, prependOnes_ones, encodeLoop_digits by exact Hh.
    reflexivity.
  - intros s Hs. pose proof (be_value_nonneg input) as Hnn.
    destruct (Z.eq_dec (be_value input) 0) as [Hz|Hz].
    + rewrite Hz, spec_base58Digits_zero in Hs. discriminate.
    + destruct (spec_base58Digits_head (be_value input) "" ltac:(lia)) as (d & s' & Hd & Heq).
      rewrite Heq in Hs. injection Hs as Hc _.
      apply alphabetAt_one in Hc; lia.
  - intros tl. unfold encodeBase58.
    rewrite !encodeLoop_digits, be_value_zero_cons. simpl leadingZeros.
    rewrite !prependOnes_ones. reflexivity.
Qed.

Lemma encodeBase58_spec_witness :
  head [x01; x02; x03] <> Some x00 /\
  encodeBase58 [x00; x00; x01; x02; x03]
  = "11" +:+ spec_base58Digits (be_value [x00; x00; x01; x02; x03]) "".
Proof.
  assert (H : head [x01; x02; x03] <> Some x00) by (simpl; discriminate).
  split; [exact H | apply (encodeBase58_spec 2 [x01; x02; x03] H)].
Defined.

(** ** In-memory client *)

Lemma Sum256_length (data : list byte) : length (SHA256.Sum256 data) = 32%nat.
Proof. unfold SHA256.Sum256, SHA256.digest. rewrite !length_app. reflexivity. Qed.

Lemma multihashOf_eq (data : list byte) :
  MockClient.multihashOf data = x12 :: x20 :: SHA256.Sum256 data.
Proof.
  unfold MockClient.multihashOf, copy.
  pose proof (Sum256_length data) as Hlen.
  generalize dependent (SHA256.Sum256 data). intros hash Hlen.
  cbn. rewrite Hlen. cbn.
  rewrite (take_ge hash 32) by lia. rewrite app_nil_r. reflexivity.
Qed.

(** C1.  The identifier [Upload] returns is the base58 encoding of a
    34-byte multihash: byte 0 is [0x12], byte 1 is [0x20], bytes 2 to 33 are
    the 32-byte SHA-256 digest of the payload.  It is the same for every
    filename and every state of the client, and the call reports no error. *)
Theorem Upload_identifier (c c' : MockClient.t) (b : list byte) (f f' : string) :
  let multihash := MockClient.multihashOf b in
  (length multihash = 34%nat /\
   multihash !! 0%nat = Some x12 /\
   multihash !! 1%nat = Some x20 /\
   drop 2 multihash = SHA256.Sum256 b /\
   length (SHA256.Sum256 b) = 32%nat) /\
  (MockClient.Upload c b f).1
  = (Some (mkAddResponse f (encodeBase58 multihash) (pretty (length b))), None) /\
  (IPFSHash <$> (MockClient.Upload c' b f').1.1)
  = (IPFSHash <$> (MockClient.Upload c b f).1.1).
Proof.
  intros multihash. unfold multihash. rewrite multihashOf_eq.
  pose proof (Sum256_length b) as Hlen.
  repeat split; simpl; rewrite ?Hlen; reflexivity.
Qed.

(** [Upload] never fails and names the payload by its content. *)
Lemma Upload_result (c : MockClient.t) (b : list byte) (f : string) :
  MockClient.Upload c b f
  = ((Some (mkAddResponse f (encodeBase58 (MockClient.multihashOf b))
                          (pretty (length b))), None),
     MockClient.mk (<[encodeBase58 (MockClient.multihashOf b) := b]> (MockClient.storage c))
                   (MockClient.pins c) (MockClient.gatewayURL c)).
Proof. reflexivity. Qed.

(** C3.  Round trip: from every state and for every payload, the empty one
    included, [Upload] succeeds and [Get] with the identifier it returned
    succeeds and gives the payload back. *)
Theorem Get_Upload_roundtrip (c : MockClient.t) (b : list byte) (f : string) :
  (exists r : AddResponse,
     (MockClient.Upload c b f).1 = (Some r, None) /\
     (MockClient.Get (MockClient.Upload c b f).2 (IPFSHash r)).1 = (b, None)) /\
  (exists r : AddResponse,
     (MockClient.Upload c [] f).1 = (Some r, None) /\
     (MockClient.Get (MockClient.Upload c [] f).2 (IPFSHash r)).1 = ([], None)).
Proof.
  split; eexists; rewrite Upload_result; (split; [reflexivity|]);
    unfold MockClient.Get; cbn [snd MockClient.storage IPFSHash];
    rewrite lookup_insert_eq; reflexivity.
Qed.

(** C4.  Uploading the same payload twice, under any two filenames, gives
    the same identifier both times, never an error, and leaves the storage
    map as the first upload left it. *)
Theorem Upload_idempotent (c : MockClient.t) (b : list byte) (f1 f2 : string) :
  let first := MockClient.Upload c b f1 in
  let second := MockClient.Upload first.2 b f2 in
  (exists r1 r2 : AddResponse,
     first.1 = (Some r1, None) /\ second.1 = (Some r2, None) /\
     IPFSHash r1 = IPFSHash r2) /\
  MockClient.storage second.2 = MockClient.storage first.2 /\
  size (MockClient.storage second.2) = size (MockClient.storage first.2) /\
  second.2 = first.2.
Proof.
  intros first second. unfold second, first. rewrite !Upload_result.
  cbn [fst snd MockClient.storage MockClient.pins MockClient.gatewayURL].
  rewrite insert_insert_eq. repeat split. do 2 eexists. repeat split.
Qed.

(** C7.  [Pin] and [Unpin] never return an error.  After [Pin(x); Unpin(x)]
    the identifier is not pinned and the pin map is the one of the start
    without [x]; when [x] was not pinned at the start this is the pin map
    of the start, and so is the pin map after [Unpin(x)] alone. *)
Theorem Pin_Unpin (c : MockClient.t) (x : string) :
  let pinned := (MockClient.Pin c x).2 in
  let after := (MockClient.Unpin pinned x).2 in
  (MockClient.Pin c x).1 = None /\
  (MockClient.Unpin c x).1 = None /\
  (MockClient.Unpin pinned x).1 = None /\
  MockClient.IsPinned pinned x = true /\
  MockClient.IsPinned after x = false /\
  MockClient.pins after = delete x (MockClient.pins c) /\
  (MockClient.pins c !! x = None ->
   MockClient.pins after = MockClient.pins c /\
   MockClient.pins (MockClient.Unpin c x).2 = MockClient.pins c /\
   MockClient.IsPinned (MockClient.Unpin c x).2 x = false).
Proof.
  intros pinned after. unfold after, pinned, MockClient.IsPinned. simpl.
  rewrite lookup_insert_eq, lookup_delete_eq, delete_insert_eq.
  repeat split; try reflexivity.
  - rewrite delete_id by assumption. reflexivity.
  - rewrite delete_id by assumption. reflexivity.
  - rewrite lookup_delete_eq. reflexivity.
Qed.

Lemma Pin_Unpin_witness :
  MockClient.pins (MockClient.NewMockClient "") !! "QmX" = None /\
  MockClient.pins
    (MockClient.Unpin (MockClient.Pin (MockClient.NewMockClient "") "QmX").2 "QmX").2
  = MockClient.pins (MockClient.NewMockClient "").
Proof.
  assert (H : MockClient.pins (MockClient.NewMockClient "") !! "QmX" = None)
    by reflexivity.
  split; [exact H|].
  destruct (Pin_Unpin (MockClient.NewMockClient "") "QmX")
    as (_ & _ & _ & _ & _ & _ & Hnp).
  exact (proj1 (Hnp H)).
Defined.

(** C10.  Frame: [Pin] and [Unpin] leave the storage map as it was,
    [Upload] leaves the pin map as it was, and [Get] leaves the whole client
    as it was. *)
Theorem MockClient_frame (c : MockClient.t) (x : string) (b : list byte) (f : string) :
  MockClient.storage (MockClient.Pin c x).2 = MockClient.storage c /\
  MockClient.storage (MockClient.Unpin c x).2 = MockClient.storage c /\
  MockClient.pins (MockClient.Upload c b f).2 = MockClient.pins c /\
  (MockClient.Get c x).2 = c /\
  MockClient.storage (MockClient.Get c x).2 = MockClient.storage c /\
  MockClient.pins (MockClient.Get c x).2 = MockClient.pins c.
Proof.
  assert (Hget : (MockClient.Get c x).2 = c)
    by (unfold MockClient.Get; destruct (MockClient.storage c !! x); reflexivity).
  rewrite Hget. repeat split.
Qed.

(** ** gRPC translation layer *)

Section HandlerFacts.
Context {C : Type} `{!IPFSClient C}.

Lemma length_eqb_nonempty (l : list byte) : l <> [] -> (length l =? 0)%nat = false.
Proof. destruct l; [contradiction | reflexivity]. Qed.

Lemma cid_eqb_nonempty (cid : string) : cid <> "" -> String.eqb cid "" = false.
Proof. intros Hc. apply String.eqb_neq. exact Hc. Qed.

(** What each handler does with the outcome of its one client call. *)

Lemma UploadContent_outcome (s s' : C) (req : pb.UploadContentRequest.t)
    (result : option AddResponse) (err : option error) :
  pb.UploadContentRequest.Data req <> [] ->
  Upload s (pb.UploadContentRequest.Data req)
         (GRPCServer.contentFilename (pb.UploadContentRequest.Filename req))
  = ((result, err), s') ->
  GRPCServer.UploadContent s req =
  (match err, result with
   | Some e, _ => Fail (status.mk codes.Internal ("failed to upload content: " +:+ e))
   | None, None => NilDeref
   | None, Some r =>
       Ok (pb.UploadContentResponse.mk (IPFSHash r) (strconv.ParseInt (Size r) 10 64).1)
   end, s').
Proof.
  intros Hd Hu. unfold GRPCServer.UploadContent.
  rewrite (length_eqb_nonempty _ Hd), Hu. destruct err, result; reflexivity.
Qed.

Lemma UploadProto_outcome (s s' : C) (req : pb.UploadProtoRequest.t)
    (result : option AddResponse) (err : option error) :
  pb.UploadProtoRequest.ProtoData req <> [] ->
  Upload s (pb.UploadProtoRequest.ProtoData req)
         (GRPCServer.protoFilename (pb.UploadProtoRequest.ProtoType req))
  = ((result, err), s') ->
  GRPCServer.UploadProto s req =
  (match err, result with
   | Some e, _ => Fail (status.mk codes.Internal ("failed to upload proto: " +:+ e))
   | None, None => NilDeref
   | None, Some r =>
       Ok (pb.UploadProtoResponse.mk (IPFSHash r) (strconv.ParseInt (Size r) 10 64).1)
   end, s').
Proof.
  intros Hd Hu. unfold GRPCServer.UploadProto.
  rewrite (length_eqb_nonempty _ Hd), Hu. destruct err, result; reflexivity.
Qed.

Lemma GetContent_outcome (s s' : C) (req : pb.GetContentRequest.t)
    (data : list byte) (err : option error) :
  pb.GetContentRequest.Cid req <> "" ->
  Get s (pb.GetContentRequest.Cid req) = ((data, err), s') ->
  GRPCServer.GetContent s req =
  (match err with
   | Some e => Fail (status.mk codes.NotFound ("failed to get content: " +:+ e))
   | None => Ok (pb.GetContentResponse.mk data (Z.of_nat (length data)))
   end, s').
Proof.
  intros Hc Hg. unfold GRPCServer.GetContent.
  rewrite (cid_eqb_nonempty _ Hc), Hg. destruct err; reflexivity.
Qed.

Lemma GetProto_outcome (s s' : C) (req : pb.GetProtoRequest.t)
    (data : list byte) (err : option error) :
  pb.GetProtoRequest.Cid req <> "" ->
  Get s (pb.GetProtoRequest.Cid req) = ((data, err), s') ->
  GRPCServer.GetProto s req =
  (match err with
   | Some e => Fail (status.mk codes.NotFound ("failed to get proto: " +:+ e))
   | None => Ok (pb.GetProtoResponse.mk data)
   end, s').
Proof.
  intros Hc Hg. unfold GRPCServer.GetProto.
  rewrite (cid_eqb_nonempty _ Hc), Hg. destruct err; reflexivity.
Qed.

Lemma PinContent_outcome (s s' : C) (req : pb.PinContentRequest.t)
    (err : option error) :
  pb.PinContentRequest.Cid req <> "" ->
  Pin s (pb.PinContentRequest.Cid req) = (err, s') ->
  GRPCServer.PinContent s req =
  (match err with
   | Some e => Fail (status.mk codes.Internal ("failed to pin content: " +:+ e))
   | None => Ok (pb.PinContentResponse.mk true)
   end, s').
Proof.
  intros Hc Hp. unfold GRPCServer.PinContent.
  rewrite (cid_eqb_nonempty _ Hc), Hp. destruct err; reflexivity.
Qed.

Lemma UnpinContent_outcome (s s' : C) (req : pb.UnpinContentRequest.t)
    (err : option error) :
  pb.UnpinContentRequest.Cid req <> "" ->
  Unpin s (pb.UnpinContentRequest.Cid req) = (err, s') ->
  GRPCServer.UnpinContent s req =
  (match err with
   | Some e => Fail (status.mk codes.Internal ("failed to unpin content: " +:+ e))
   | None => Ok (pb.UnpinContentResponse.mk true)
   end, s').
Proof.
  intros Hc Hp. unfold GRPCServer.UnpinContent.
  rewrite (cid_eqb_nonempty _ Hc), Hp. destruct err; reflexivity.
Qed.

Lemma GetGatewayURL_outcome (s s' : C) (req : pb.GetGatewayURLRequest.t)
    (url : string) :
  pb.GetGatewayURLRequest.Cid req <> "" ->
  GetGatewayURL s (pb.GetGatewayURLRequest.Cid req) = (url, s') ->
  GRPCServer.GetGatewayURL s req = (Ok (pb.GetGatewayURLResponse.mk url), s').
Proof.
  intros Hc Hu. unfold GRPCServer.GetGatewayURL.
  rewrite (cid_eqb_nonempty _ Hc), Hu. reflexivity.
Qed.

End HandlerFacts.

(** The scripted client records nothing when the required field is empty. *)
Lemma spy_records_no_call (spy : SpyClient.t) (filename protoType : string) :
  SpyClient.calls (GRPCServer.UploadContent spy (pb.UploadContentRequest.mk [] filename)).2
  = SpyClient.calls spy /\
  SpyClient.calls (GRPCServer.UploadProto spy (pb.UploadProtoRequest.mk [] protoType)).2
  = SpyClient.calls spy /\
  SpyClient.calls (GRPCServer.GetContent spy (pb.GetContentRequest.mk "")).2
  = SpyClient.calls spy.
Proof. repeat split. Qed.

(** C5.  Each of the seven handlers, given a request whose required field
    ([data], [proto_data] or [cid]) is empty, returns the invalid-argument
    status and hands back the client untouched: no method of the client is
    called, whatever the client is. *)
Theorem empty_field_invalid_argument {C : Type} `{!IPFSClient C}
    (s : C) (filename protoType : string) :
  GRPCServer.UploadContent s (pb.UploadContentRequest.mk [] filename)
  = (Fail (status.mk codes.InvalidArgument "data is required"), s) /\
  GRPCServer.UploadProto s (pb.UploadProtoRequest.mk [] protoType)
  = (Fail (status.mk codes.InvalidArgument "proto_data is required"), s) /\
  GRPCServer.GetContent s (pb.GetContentRequest.mk "")
  = (Fail (status.mk codes.InvalidArgument "cid is required"), s) /\
  GRPCServer.GetProto s (pb.GetProtoRequest.mk "")
  = (Fail (status.mk codes.InvalidArgument "cid is required"), s) /\
  GRPCServer.PinContent s (pb.PinContentRequest.mk "")
  = (Fail (status.mk codes.InvalidArgument "cid is required"), s) /\
  GRPCServer.UnpinContent s (pb.UnpinContentRequest.mk "")
  = (Fail (status.mk codes.InvalidArgument "cid is required"), s) /\
  GRPCServer.GetGatewayURL s (pb.GetGatewayURLRequest.mk "")
  = (Fail (status.mk codes.InvalidArgument "cid is required"), s).
Proof. repeat split. Qed.

(** C6.  For a request whose required field is not empty, the reply is
    decided by the outcome of the one client call: a success is passed on
    (identifier and parsed size, bytes, [true]); an error of [Upload], [Pin]
    or [Unpin] becomes the internal status; an error of [Get] becomes the
    not-found status. *)
Theorem adapter_outcome_classification {C : Type} `{!IPFSClient C} (s s' : C) :
  (forall req r e,
     pb.UploadContentRequest.Data req <> [] ->
     Upload s (pb.UploadContentRequest.Data req)
            (GRPCServer.contentFilename (pb.UploadContentRequest.Filename req))
     = ((r, Some e), s') ->
     GRPCServer.UploadContent s req
     = (Fail (status.mk codes.Internal ("failed to upload content: " +:+ e)), s')) /\
  (forall req r,
     pb.UploadContentRequest.Data req <> [] ->
     Upload s (pb.UploadContentRequest.Data req)
            (GRPCServer.contentFilename (pb.UploadContentRequest.Filename req))
     = ((Some r, None), s') ->
     GRPCServer.UploadContent s req
     = (Ok (pb.UploadContentResponse.mk (IPFSHash r) (strconv.ParseInt (Size r) 10 64).1), s')) /\
  (forall req r e,
     pb.UploadProtoRequest.ProtoData req <> [] ->
     Upload s (pb.UploadProtoRequest.ProtoData req)
            (GRPCServer.protoFilename (pb.UploadProtoRequest.ProtoType req))
     = ((r, Some e), s') ->
     GRPCServer.UploadProto s req
     = (Fail (status.mk codes.Internal ("failed to upload proto: " +:+ e)), s')) /\
  (forall req r,
     pb.UploadProtoRequest.ProtoData req <> [] ->
     Upload s (pb.UploadProtoRequest.ProtoData req)
            (GRPCServer.protoFilename (pb.UploadProtoRequest.ProtoType req))
     = ((Some r, None), s') ->
     GRPCServer.UploadProto s req
     = (Ok (pb.UploadProtoResponse.mk (IPFSHash r) (strconv.ParseInt (Size r) 10 64).1), s')) /\
  (forall req data e,
     pb.GetContentRequest.Cid req <> "" ->
     Get s (pb.GetContentRequest.Cid req) = ((data, Some e), s') ->
     GRPCServer.GetContent s req
     = (Fail (status.mk codes.NotFound ("failed to get content: " +:+ e)), s')) /\
  (forall req data,
     pb.GetContentRequest.Cid req <> "" ->
     Get s (pb.GetContentRequest.Cid req) = ((data, None), s') ->
     GRPCServer.GetContent s req
     = (Ok (pb.GetContentResponse.mk data (Z.of_nat (length data))), s')) /\
  (forall req data e,
     pb.GetProtoRequest.Cid req <> "" ->
     Get s (pb.GetProtoRequest.Cid req) = ((data, Some e), s') ->
     GRPCServer.GetProto s req
     = (Fail (status.mk codes.NotFound ("failed to get proto: " +:+ e)), s')) /\
  (forall req data,
     pb.GetProtoRequest.Cid req <> "" ->
     Get s (pb.GetProtoRequest.Cid req) = ((data, None), s') ->
     GRPCServer.GetProto s req = (Ok (pb.GetProtoResponse.mk data), s')) /\
  (forall req e,
     pb.PinContentRequest.Cid req <> "" ->
     Pin s (pb.PinContentRequest.Cid req) = (Some e, s') ->
     GRPCServer.PinContent s req
     = (Fail (status.mk codes.Internal ("failed to pin content: " +:+ e)), s')) /\
  (forall req,
     pb.PinContentRequest.Cid req <> "" ->
     Pin s (pb.PinContentRequest.Cid req) = (None, s') ->
     GRPCServer.PinContent s req = (Ok (pb.PinContentResponse.mk true), s')) /\
  (forall req e,
     pb.UnpinContentRequest.Cid req <> "" ->
     Unpin s (pb.UnpinContentRequest.Cid req) = (Some e, s') ->
     GRPCServer.UnpinContent s req
     = (Fail (status.mk codes.Internal ("failed to unpin content: " +:+ e)), s')) /\
  (forall req,
     pb.UnpinContentRequest.Cid req <> "" ->
     Unpin s (pb.UnpinContentRequest.Cid req) = (None, s') ->
     GRPCServer.UnpinContent s req = (Ok (pb.UnpinContentResponse.mk true), s')) /\
  (forall req url,
     pb.GetGatewayURLRequest.Cid req <> "" ->
     GetGatewayURL s (pb.GetGatewayURLRequest.Cid req) = (url, s') ->
     GRPCServer.GetGatewayURL s req = (Ok (pb.GetGatewayURLResponse.mk url), s')).
Proof.
  repeat apply conj; intros;
    first [ erewrite UploadContent_outcome by eassumption
          | erewrite UploadProto_outcome by eassumption
          | erewrite GetContent_outcome by eassumption
          | erewrite GetProto_outcome by eassumption
          | erewrite PinContent_outcome by eassumption
          | erewrite UnpinContent_outcome by eassumption
          | erewrite GetGatewayURL_outcome by eassumption ];
    reflexivity.
Qed.

(** A client whose [Upload] and [Get] fail, and the replies it draws. *)
Definition failingSpy : SpyClient.t :=
  SpyClient.fresh (None, Some "connection refused") ([], Some "status 504") None None.

Lemma adapter_outcome_classification_witness :
  let req := pb.UploadContentRequest.mk [x61] "" in
  let greq := pb.GetContentRequest.mk "QmX" in
  let up := SpyClient.record failingSpy (SpyClient.UploadCall [x61] "content") in
  let get := SpyClient.record failingSpy (SpyClient.GetCall "QmX") in
  (pb.UploadContentRequest.Data req <> [] /\
   Upload failingSpy (pb.UploadContentRequest.Data req)
          (GRPCServer.contentFilename (pb.UploadContentRequest.Filename req))
   = ((None, Some "connection refused"), up) /\
   GRPCServer.UploadContent failingSpy req
   = (Fail (status.mk codes.Internal "failed to upload content: connection refused"), up)) /\
  (pb.GetContentRequest.Cid greq <> "" /\
   Get failingSpy (pb.GetContentRequest.Cid greq) = (([], Some "status 504"), get) /\
   GRPCServer.GetContent failingSpy greq
   = (Fail (status.mk codes.NotFound "failed to get content: status 504"), get)).
Proof.
  intros req greq up get.
  assert (Hd : pb.UploadContentRequest.Data req <> []) by discriminate.
  assert (Hc : pb.GetContentRequest.Cid greq <> "") by discriminate.
  assert (Hu : Upload failingSpy (pb.UploadContentRequest.Data req)
                 (GRPCServer.contentFilename (pb.UploadContentRequest.Filename req))
               = ((None, Some "connection refused"), up)) by reflexivity.
  assert (Hg : Get failingSpy (pb.GetContentRequest.Cid greq)
               = (([], Some "status 504"), get)) by reflexivity.
  split.
  - split; [exact Hd | split; [exact Hu |]].
    exact (proj1 (adapter_outcome_classification failingSpy up) req None _ Hd Hu).
  - split; [exact Hc | split; [exact Hg |]].
    destruct (adapter_outcome_classification failingSpy get) as (_ & _ & _ & _ & Hget & _).
    exact (Hget greq [] _ Hc Hg).
Defined.

(** C8.  When the cid is not empty and [Get] succeeds, the [size_bytes] of
    the reply of [GetContent] is the length of the [data] of that reply. *)
Theorem GetContent_size {C : Type} `{!IPFSClient C} (s s' : C)
    (req : pb.GetContentRequest.t) (data : list byte) :
  pb.GetContentRequest.Cid req <> "" ->
  Get s (pb.GetContentRequest.Cid req) = ((data, None), s') ->
  exists resp,
    GRPCServer.GetContent s req = (Ok resp, s') /\
    pb.GetContentResponse.Data resp = data /\
    pb.GetContentResponse.SizeBytes resp
    = Z.of_nat (length (pb.GetContentResponse.Data resp)).
Proof.
  intros Hc Hg. eexists. rewrite (GetContent_outcome _ _ _ _ _ Hc Hg).
  repeat split.
Qed.

Lemma GetContent_size_witness :
  let c := (MockClient.Upload (MockClient.NewMockClient "") [x61; x62; x63] "abc.txt").2 in
  let req := pb.GetContentRequest.mk "QmatYkNGZnELf8cAGdyJpUca2PyY4szai3RHyyWofNY1pY" in
  pb.GetContentRequest.Cid req <> "" /\
  Get c (pb.GetContentRequest.Cid req) = (([x61; x62; x63], None), c) /\
  exists resp,
    GRPCServer.GetContent c req = (Ok resp, c) /\
    pb.GetContentResponse.Data resp = [x61; x62; x63] /\
    pb.GetContentResponse.SizeBytes resp
    = Z.of_nat (length (pb.GetContentResponse.Data resp)).
Proof.
  intros c req.
  assert (Hc : pb.GetContentRequest.Cid req <> "") by discriminate.
  assert (Hg : Get c (pb.GetContentRequest.Cid req) = (([x61; x62; x63], None), c))
    by (vm_compute; reflexivity).
  split; [exact Hc | split; [exact Hg |]].
  exact (GetContent_size c c req [x61; x62; x63] Hc Hg).
Defined.

(** ** Size parsing *)

Lemma ParseInt_error_value (s : string) :
  ((strconv.ParseInt s 10 64).2 = Some strconv.ErrSyntax ->
   (strconv.ParseInt s 10 64).1 = 0) /\
  ((strconv.ParseInt s 10 64).2 = Some strconv.ErrRange ->
   (strconv.ParseInt s 10 64).1 = 2 ^ 63 - 1 \/
   (strconv.ParseInt s 10 64).1 = - 2 ^ 63).
Proof.
  unfold strconv.ParseInt. destruct s as [|c rest]; [split; [reflexivity | discriminate]|].
  destruct (strconv.ParseUint _ 10 64) as [un err].
  change (strconv.uint64 (Z.shiftl 1 (64 - 1))) with (2 ^ 63).
  change (strconv.int64 (2 ^ 63 - 1)) with (2 ^ 63 - 1).
  change (strconv.int64 (- strconv.int64 (2 ^ 63))) with (- 2 ^ 63).
  destruct err as [[|]|];
    [split; [reflexivity | discriminate] | |];
    destruct (negb (Ascii.eqb c "-") && (2 ^ 63 <=? un));
    try destruct (Ascii.eqb c "-" && (2 ^ 63 <? un));
    cbn [fst snd]; split; intros; try discriminate; auto.
Qed.

(** C9 as it is stated: a size string that [ParseInt] rejects gives a reply
    with [size_bytes] equal to 0. *)
Definition size_parse_failure_gives_zero : Prop :=
  forall (C : Type) (client : IPFSClient C) (s s' : C) (r : AddResponse),
    (strconv.ParseInt (Size r) 10 64).2 <> None ->
    (forall req,
       pb.UploadContentRequest.Data req <> [] ->
       Upload s (pb.UploadContentRequest.Data req)
              (GRPCServer.contentFilename (pb.UploadContentRequest.Filename req))
       = ((Some r, None), s') ->
       GRPCServer.UploadContent s req
       = (Ok (pb.UploadContentResponse.mk (IPFSHash r) 0), s')) /\
    (forall req,
       pb.UploadProtoRequest.ProtoData req <> [] ->
       Upload s (pb.UploadProtoRequest.ProtoData req)
              (GRPCServer.protoFilename (pb.UploadProtoRequest.ProtoType req))
       = ((Some r, None), s') ->
       GRPCServer.UploadProto s req
       = (Ok (pb.UploadProtoResponse.mk (IPFSHash r) 0), s')).

(** A client that reports a size one above the largest [int64]. *)
Definition oversizeSpy : SpyClient.t :=
  SpyClient.fresh (Some (mkAddResponse "content" "QmX" "9223372036854775808"), None)
                  ([], None) None None.

(** What [ParseInt] returns on size strings it rejects: 0 for a syntax
    error, the nearest [int64] for a value out of range, which it reports
    as soon as the digits read so far overflow. *)
Example ParseInt_rejected :
  strconv.ParseInt "abc" 10 64 = (0, Some strconv.ErrSyntax) /\
  strconv.ParseInt "" 10 64 = (0, Some strconv.ErrSyntax) /\
  strconv.ParseInt "12 bytes" 10 64 = (0, Some strconv.ErrSyntax) /\
  strconv.ParseInt "9223372036854775808" 10 64 = (2 ^ 63 - 1, Some strconv.ErrRange) /\
  strconv.ParseInt "-9223372036854775809" 10 64 = (- 2 ^ 63, Some strconv.ErrRange) /\
  strconv.ParseInt "99999999999999999999x" 10 64 = (2 ^ 63 - 1, Some strconv.ErrRange).
Proof. vm_compute. repeat split. Qed.

Example ParseInt_accepted :
  strconv.ParseInt "0" 10 64 = (0, None) /\
  strconv.ParseInt "+42" 10 64 = (42, None) /\
  strconv.ParseInt "-7" 10 64 = (-7, None) /\
  strconv.ParseInt "9223372036854775807" 10 64 = (2 ^ 63 - 1, None) /\
  strconv.ParseInt "-9223372036854775808" 10 64 = (- 2 ^ 63, None).
Proof. vm_compute. repeat split. Qed.

(** A client that reports a number followed by a unit. *)
Definition garbageSpy : SpyClient.t :=
  SpyClient.fresh (Some (mkAddResponse "content" "QmX" "99999999999999999999x"), None)
                  ([], None) None None.

(** C9, counterexample.  The size string ["9223372036854775808"] is rejected
    by [ParseInt] and [UploadContent] replies with [size_bytes] equal to
    [2^63 - 1], not 0; the same happens for ["99999999999999999999x"], which
    is not a numeral at all. *)
Lemma size_parse_failure_not_zero :
  ~ size_parse_failure_gives_zero /\
  ((strconv.ParseInt "9223372036854775808" 10 64).2 = Some strconv.ErrRange /\
   (GRPCServer.UploadContent oversizeSpy (pb.UploadContentRequest.mk [x61] "")).1
   = Ok (pb.UploadContentResponse.mk "QmX" 9223372036854775807)) /\
  ((strconv.ParseInt "99999999999999999999x" 10 64).2 = Some strconv.ErrRange /\
   (GRPCServer.UploadContent garbageSpy (pb.UploadContentRequest.mk [x61] "")).1
   = Ok (pb.UploadContentResponse.mk "QmX" 9223372036854775807)).
Proof.
  split; [|vm_compute; repeat split].
  intros Hclaim.
  pose (req := pb.UploadContentRequest.mk [x61] "").
  pose (s' := SpyClient.record oversizeSpy (SpyClient.UploadCall [x61] "content")).
  destruct (Hclaim SpyClient.t _ oversizeSpy s'
              (mkAddResponse "content" "QmX" "9223372036854775808")) as [Hc _].
  { vm_compute. discriminate. }
  specialize (Hc req ltac:(discriminate) eq_refl).
  vm_compute in Hc. discriminate Hc.
Qed.

(** C9, amended.  When [Upload] succeeds, [UploadContent] and [UploadProto]
    reply with success whatever the size string is.  The [size_bytes] of the
    reply is 0 when [ParseInt] rejects the string for its syntax, and
    [2^63 - 1] or [-2^63] when it rejects it as out of range. *)
Theorem size_parse_lenient {C : Type} `{!IPFSClient C} (s s' : C) (r : AddResponse)
    (data : list byte) (filename protoType : string) :
  data <> [] ->
  (Upload s data (GRPCServer.contentFilename filename) = ((Some r, None), s') ->
   exists size,
     GRPCServer.UploadContent s (pb.UploadContentRequest.mk data filename)
     = (Ok (pb.UploadContentResponse.mk (IPFSHash r) size), s') /\
     ((strconv.ParseInt (Size r) 10 64).2 = Some strconv.ErrSyntax -> size = 0) /\
     ((strconv.ParseInt (Size r) 10 64).2 = Some strconv.ErrRange ->
      size = 2 ^ 63 - 1 \/ size = - 2 ^ 63)) /\
  (Upload s data (GRPCServer.protoFilename protoType) = ((Some r, None), s') ->
   exists size,
     GRPCServer.UploadProto s (pb.UploadProtoRequest.mk data protoType)
     = (Ok (pb.UploadProtoResponse.mk (IPFSHash r) size), s') /\
     ((strconv.ParseInt (Size r) 10 64).2 = Some strconv.ErrSyntax -> size = 0) /\
     ((strconv.ParseInt (Size r) 10 64).2 = Some strconv.ErrRange ->
      size = 2 ^ 63 - 1 \/ size = - 2 ^ 63)).
Proof.
  intros Hd. pose proof (ParseInt_error_value (Size r)) as [Hsyn Hrng].
  split; intros Hu; exists (strconv.ParseInt (Size r) 10 64).1.
  - rewrite (UploadContent_outcome s s' (pb.UploadContentRequest.mk data filename)
               (Some r) None Hd Hu). auto.
  - rewrite (UploadProto_outcome s s' (pb.UploadProtoRequest.mk data protoType)
               (Some r) None Hd Hu). auto.
Qed.

(** A client that reports a size that is no number. *)
Definition wordySpy : SpyClient.t :=
  SpyClient.fresh (Some (mkAddResponse "content" "QmX" "unknown"), None)
                  ([], None) None None.

Lemma size_parse_lenient_witness :
  let s' := SpyClient.record wordySpy (SpyClient.UploadCall [x61] "content") in
  [x61] <> [] /\
  Upload wordySpy [x61] (GRPCServer.contentFilename "") = ((Some
    (mkAddResponse "content" "QmX" "unknown"), None), s') /\
  (strconv.ParseInt "unknown" 10 64).2 = Some strconv.ErrSyntax /\
  GRPCServer.UploadContent wordySpy (pb.UploadContentRequest.mk [x61] "")
  = (Ok (pb.UploadContentResponse.mk "QmX" 0), s').
Proof.
  intros s'.
  assert (Hd : [x61] <> []) by discriminate.
  assert (Hu : Upload wordySpy [x61] (GRPCServer.contentFilename "")
               = ((Some (mkAddResponse "content" "QmX" "unknown"), None), s'))
    by reflexivity.
  assert (Hp : (strconv.ParseInt "unknown" 10 64).2 = Some strconv.ErrSyntax)
    by reflexivity.
  split; [exact Hd | split; [exact Hu | split; [exact Hp |]]].
  destruct (proj1 (size_parse_lenient wordySpy s' _ [x61] "" "" Hd) Hu)
    as (size & Heq & Hsyn & _).
  rewrite Heq, (Hsyn Hp). reflexivity.
Defined.

(** * Further properties *)

(** ** The codec keeps to its alphabet and loses nothing *)

Definition inAlphabet (c : ascii) : Prop :=
  In c (list_ascii_of_string base58Alphabet).

Lemma alphabetAt_inAlphabet (d : Z) : 0 <= d < 58 -> inAlphabet (alphabetAt d).
Proof.
  intros Hd.
  assert (exists n, (n < 58)%nat /\ d = Z.of_nat n) as (n & Hn & ->)
    by (exists (Z.to_nat d); lia).
  clear Hd. unfold inAlphabet.
  do 58 (destruct n as [|n];
         [vm_compute; repeat (first [left; reflexivity | right]) |]).
  lia.
Qed.

Lemma alphabetIndex_at (d : Z) : 0 <= d < 58 -> alphabetIndex (alphabetAt d) = d.
Proof.
  intros Hd.
  assert (exists n, (n < 58)%nat /\ d = Z.of_nat n) as (n & Hn & ->)
    by (exists (Z.to_nat d); lia).
  clear Hd.
  do 58 (destruct n as [|n]; [vm_compute; reflexivity |]).
  lia.
Qed.

Lemma spec_base58Digits_alphabet (v : Z) (acc : string) :
  Forall inAlphabet (list_ascii_of_string acc) ->
  Forall inAlphabet (list_ascii_of_string (spec_base58Digits v acc)).
Proof.
  remember (bits v) as n eqn:Hn. revert v acc Hn.
  induction n as [n IH] using lt_wf_ind. intros v acc -> Hacc.
  rewrite spec_base58Digits_eq. destruct (Z.ltb_spec 0 v) as [Hv|Hv]; [|exact Hacc].
  apply (IH _ (bits_div58 v Hv) _ _ eq_refl).
  cbn [list_ascii_of_string]. constructor; [|exact Hacc].
  apply alphabetAt_inAlphabet. apply Z.mod_pos_bound. lia.
Qed.

Lemma prependOnes_alphabet (n : nat) (s : string) :
  Forall inAlphabet (list_ascii_of_string s) ->
  Forall inAlphabet (list_ascii_of_string (prependOnes n s)).
Proof.
  revert s. induction n as [|n IH]; intros s Hs; [exact Hs|].
  cbn [prependOnes]. apply IH. cbn [list_ascii_of_string]. constructor; [|exact Hs].
  change "1"%char with (alphabetAt 0). apply alphabetAt_inAlphabet. lia.
Qed.

(** X1.  Every character of an encoded string is one of the 58 characters
    of [base58Alphabet]. *)
Theorem encodeBase58_alphabet (input : list byte) :
  Forall inAlphabet (list_ascii_of_string (encodeBase58 input)).
Proof.
  unfold encodeBase58. apply prependOnes_alphabet.
  rewrite encodeLoop_digits. apply spec_base58Digits_alphabet. constructor.
Qed.

Lemma digitsValue_digits (v : Z) (acc : string) :
  0 <= v -> digitsValue (spec_base58Digits v acc) 0 = digitsValue acc v.
Proof.
  remember (bits v) as n eqn:Hn. revert v acc Hn.
  induction n as [n IH] using lt_wf_ind. intros v acc -> Hnn.
  rewrite spec_base58Digits_eq. destruct (Z.ltb_spec 0 v) as [Hv|Hv].
  - rewrite (IH _ (bits_div58 v Hv) _ _ eq_refl) by (apply Z.div_pos; lia).
    cbn [digitsValue]. rewrite alphabetIndex_at by (apply Z.mod_pos_bound; lia).
    f_equal. pose proof (Z.div_mod v 58 ltac:(lia)). lia.
  - replace v with 0 by lia. reflexivity.
Qed.

Lemma spec_base58Digits_not_one (v : Z) (s : string) :
  0 <= v -> spec_base58Digits v "" <> String "1" s.
Proof.
  intros Hnn Hs. destruct (Z.eq_dec v 0) as [->|Hz].
  - rewrite spec_base58Digits_zero in Hs. discriminate.
  - destruct (spec_base58Digits_head v "" ltac:(lia)) as (d & s' & Hd & Heq).
    rewrite Heq in Hs. injection Hs as Hc _. apply alphabetAt_one in Hc; lia.
Qed.

Lemma ones_digits_inj (n1 n2 : nat) (d1 d2 : string) :
  (forall s, d1 <> String "1" s) -> (forall s, d2 <> String "1" s) ->
  ones n1 +:+ d1 = ones n2 +:+ d2 -> n1 = n2 /\ d1 = d2.
Proof.
  intros H1 H2. revert n2. induction n1 as [|n1 IH]; intros [|n2] Heq;
    cbn [ones] in Heq; rewrite ?append_cons in Heq.
  - split; [reflexivity | exact Heq].
  - exfalso. exact (H1 _ Heq).
  - exfalso. symmetry in Heq. exact (H2 _ Heq).
  - injection Heq as Heq. destruct (IH _ Heq) as [-> ->]. split; reflexivity.
Qed.

Lemma byte_to_Z_inj (a b : byte) : byte_to_Z a = byte_to_Z b -> a = b.
Proof.
  unfold byte_to_Z. intros H. assert (Hn : Byte.to_N a = Byte.to_N b) by lia.
  pose proof (Byte.of_to_N a) as Ha. rewrite Hn, Byte.of_to_N in Ha. congruence.
Qed.

Lemma be_value_upper (l : list byte) : be_value l < 256 ^ Z.of_nat (length l).
Proof.
  induction l as [|b l IH] using rev_ind; [reflexivity|].
  rewrite be_value_snoc, length_app. cbn [length].
  replace (Z.of_nat (length l + 1)) with (Z.succ (Z.of_nat (length l))) by lia.
  rewrite Z.pow_succ_r by lia. pose proof (byte_to_Z_range b). lia.
Qed.

Lemma be_value_inj_length (l1 l2 : list byte) :
  length l1 = length l2 -> be_value l1 = be_value l2 -> l1 = l2.
Proof.
  revert l2. induction l1 as [|a l1 IH]; intros [|b l2] Hlen Hv;
    try discriminate; [reflexivity|].
  injection Hlen as Hlen. rewrite !be_value_cons, <- Hlen in Hv.
  pose proof (be_value_upper l1) as U1. pose proof (be_value_upper l2) as U2.
  rewrite <- Hlen in U2.
  pose proof (be_value_nonneg l1). pose proof (be_value_nonneg l2).
  assert (Hp : 0 < 256 ^ Z.of_nat (length l1)) by (apply Z.pow_pos_nonneg; lia).
  assert (Hab : byte_to_Z a = byte_to_Z b) by nia.
  apply byte_to_Z_inj in Hab. subst b. f_equal. apply IH; [exact Hlen | lia].
Qed.

Lemma be_value_lower (b : byte) (l : list byte) :
  b <> x00 -> 256 ^ Z.of_nat (length l) <= be_value (b :: l).
Proof.
  intros Hb. rewrite be_value_cons.
  pose proof (byte_to_Z_range b). pose proof (be_value_nonneg l).
  assert (byte_to_Z b <> 0).
  { intros Hz. apply Hb. apply byte_to_Z_inj. rewrite Hz. reflexivity. }
  assert (Hp : 0 < 256 ^ Z.of_nat (length l)) by (apply Z.pow_pos_nonneg; lia).
  nia.
Qed.

(** Two sequences without a leading zero byte and with the same value are
    the same sequence. *)
Lemma be_value_inj_canonical (l1 l2 : list byte) :
  head l1 <> Some x00 -> head l2 <> Some x00 ->
  be_value l1 = be_value l2 -> l1 = l2.
Proof.
  intros H1 H2 Hv. apply be_value_inj_length; [|exact Hv].
  assert (Hmono : forall (a : byte) (la lb : list byte),
             a <> x00 -> be_value (a :: la) = be_value lb ->
             (length (a :: la) <= length lb)%nat).
  { intros a la lb Ha Hab. pose proof (be_value_lower a la Ha) as L.
    pose proof (be_value_upper lb) as U. rewrite Hab in L.
    destruct (Nat.le_gt_cases (length (a :: la)) (length lb)) as [|Hgt]; [assumption|].
    cbn [length] in Hgt.
    assert (256 ^ Z.of_nat (length lb) <= 256 ^ Z.of_nat (length la))
      by (apply Z.pow_le_mono_r; lia).
    lia. }
  destruct l1 as [|a l1], l2 as [|b l2]; [reflexivity | | |].
  - exfalso. assert (b <> x00) by (intros ->; apply H2; reflexivity).
    pose proof (be_value_lower b l2 ltac:(assumption)) as L. rewrite <- Hv in L.
    assert (0 < 256 ^ Z.of_nat (length l2)) by (apply Z.pow_pos_nonneg; lia).
    change (be_value []) with 0 in L. lia.
  - exfalso. assert (a <> x00) by (intros ->; apply H1; reflexivity).
    pose proof (be_value_lower a l1 ltac:(assumption)) as L. rewrite Hv in L.
    assert (0 < 256 ^ Z.of_nat (length l1)) by (apply Z.pow_pos_nonneg; lia).
    change (be_value []) with 0 in L. lia.
  - assert (a <> x00) by (intros ->; apply H1; reflexivity).
    assert (b <> x00) by (intros ->; apply H2; reflexivity).
    apply Nat.le_antisymm; [apply Hmono | apply Hmono]; auto.
Qed.

Lemma leadingZeros_split (input : list byte) :
  input = replicate (leadingZeros input) x00 ++ drop (leadingZeros input) input /\
  head (drop (leadingZeros input) input) <> Some x00.
Proof.
  induction input as [|b input [IH1 IH2]]; [split; [reflexivity | discriminate]|].
  cbn [leadingZeros]. destruct (Byte.eqb b x00) eqn:E; cbn [negb].
  - apply Byte.byte_dec_bl in E. subst b. cbn [replicate drop app].
    split; [f_equal; exact IH1 | exact IH2].
  - apply Byte.eqb_false in E. split; [reflexivity|].
    cbn. intros Hh. injection Hh as ->. contradiction.
Qed.

Lemma encodeBase58_ones_digits (input : list byte) :
  encodeBase58 input
  = ones (leadingZeros input) +:+ spec_base58Digits (be_value input) "".
Proof. unfold encodeBase58. rewrite prependOnes_ones, encodeLoop_digits. reflexivity. Qed.

(** An encoding fixes the number of leading zero bytes and the value. *)
Lemma encodeBase58_parts (a b : list byte) :
  encodeBase58 a = encodeBase58 b ->
  leadingZeros a = leadingZeros b /\ be_value a = be_value b.
Proof.
  rewrite !encodeBase58_ones_digits. intros Heq.
  apply ones_digits_inj in Heq as [Hn Hd];
    try (intros s; apply spec_base58Digits_not_one; apply be_value_nonneg).
  split; [exact Hn|].
  pose proof (digitsValue_digits (be_value a) "" (be_value_nonneg a)) as Ha.
  pose proof (digitsValue_digits (be_value b) "" (be_value_nonneg b)) as Hb.
  rewrite Hd in Ha. cbn [digitsValue] in Ha, Hb. congruence.
Qed.

(** The number of leading zero bytes and the value fix the sequence. *)
Lemma leadingZeros_value_inj (a b : list byte) :
  leadingZeros a = leadingZeros b -> be_value a = be_value b -> a = b.
Proof.
  intros Hn Hv.
  destruct (leadingZeros_split a) as [Ea Ha]. destruct (leadingZeros_split b) as [Eb Hb].
  assert (Hr : drop (leadingZeros a) a = drop (leadingZeros b) b).
  { apply be_value_inj_canonical; [exact Ha | exact Hb |].
    rewrite <- (be_value_replicate_zeros (leadingZeros a) (drop (leadingZeros a) a)).
    rewrite <- (be_value_replicate_zeros (leadingZeros b) (drop (leadingZeros b) b)).
    rewrite <- Ea, <- Eb. exact Hv. }
  etransitivity; [exact Ea|]. etransitivity; [|symmetry; exact Eb].
  rewrite Hr, Hn. reflexivity.
Qed.

(** X2.  [encodeBase58] is injective: two byte sequences with the same
    encoding are the same sequence. *)
Theorem encodeBase58_inj (a b : list byte) :
  encodeBase58 a = encodeBase58 b -> a = b.
Proof.
  intros Heq. destruct (encodeBase58_parts a b Heq) as [Hn Hv].
  apply leadingZeros_value_inj; assumption.
Qed.

Lemma encodeBase58_inj_witness :
  encodeBase58 [x00; x2a] = encodeBase58 [x00; x2a] /\ [x00; x2a] = [x00; x2a].
Proof.
  assert (H : encodeBase58 [x00; x2a] = encodeBase58 [x00; x2a]) by reflexivity.
  split; [exact H | exact (encodeBase58_inj _ _ H)].
Defined.

(** ** Shape of the identifiers of the in-memory client *)

Lemma spec_base58Digits_shift (k : nat) (v : Z) (acc : string) :
  58 ^ Z.of_nat k <= v ->
  exists acc',
    String.length acc' = (k + String.length acc)%nat /\
    spec_base58Digits v acc = spec_base58Digits (v / 58 ^ Z.of_nat k) acc'.
Proof.
  revert v acc. induction k as [|k IH]; intros v acc Hv.
  - exists acc. split; [reflexivity|]. change (58 ^ Z.of_nat 0) with 1.
    rewrite Z.div_1_r. reflexivity.
  - replace (Z.of_nat (S k)) with (Z.succ (Z.of_nat k)) in * by lia.
    rewrite Z.pow_succ_r in * by lia.
    assert (Hp : 0 < 58 ^ Z.of_nat k) by (apply Z.pow_pos_nonneg; lia).
    assert (Hq : 58 ^ Z.of_nat k <= v / 58) by (apply Z.div_le_lower_bound; lia).
    destruct (IH (v / 58) (String (alphabetAt (v mod 58)) acc) Hq) as (acc' & Hlen & Heq).
    exists acc'. split; [rewrite Hlen; cbn [String.length]; lia|].
    rewrite spec_base58Digits_eq. destruct (Z.ltb_spec 0 v) as [_|Hle]; [|lia].
    rewrite Heq, Z.div_div by lia. reflexivity.
Qed.

Lemma multihash_value_range (h : list byte) :
  length h = 32%nat ->
  1378 * 58 ^ 44 <= be_value (x12 :: x20 :: h) < 1379 * 58 ^ 44.
Proof.
  intros Hlen. rewrite !be_value_cons. cbn [length]. rewrite Hlen.
  pose proof (be_value_nonneg h). pose proof (be_value_upper h) as U. rewrite Hlen in U.
  change (byte_to_Z x12) with 18. change (byte_to_Z x20) with 32.
  change (Z.of_nat 32) with 32 in *. change (Z.of_nat 33) with 33.
  lia.
Qed.

Lemma multihash_identifier_shape (h : list byte) :
  length h = 32%nat ->
  exists rest, String.length rest = 44%nat /\
    encodeBase58 (x12 :: x20 :: h) = String "Q" (String "m" rest).
Proof.
  intros Hlen. pose proof (multihash_value_range h Hlen) as [Hlo Hhi].
  set (v := be_value (x12 :: x20 :: h)) in *.
  assert (Hp : 0 < 58 ^ 44) by reflexivity.
  assert (Hq : v / 58 ^ 44 = 1378).
  { symmetry. apply (Z.div_unique v (58 ^ 44) 1378 (v - 1378 * 58 ^ 44)); lia. }
  destruct (spec_base58Digits_shift 44 v "" ltac:(change (Z.of_nat 44) with 44; lia))
    as (rest & Hrest & Heq).
  change (Z.of_nat 44) with 44 in Heq. rewrite Hq in Heq.
  exists rest. split; [exact Hrest|].
  rewrite encodeBase58_ones_digits. fold v. rewrite Heq.
  do 3 (rewrite spec_base58Digits_eq; cbn -[spec_base58Digits]). reflexivity.
Qed.

(** X3.  Every identifier [Upload] returns has 46 characters and starts
    with ["Qm"]; in particular it is never the empty string. *)
Theorem Upload_identifier_shape (c : MockClient.t) (data : list byte) (f : string) :
  exists r rest,
    (MockClient.Upload c data f).1 = (Some r, None) /\
    IPFSHash r = String "Q" (String "m" rest) /\
    String.length rest = 44%nat /\
    String.length (IPFSHash r) = 46%nat /\
    IPFSHash r <> "".
Proof.
  destruct (multihash_identifier_shape (SHA256.Sum256 data) (Sum256_length data))
    as (rest & Hlen & Heq).
  rewrite <- multihashOf_eq in Heq.
  eexists. exists rest. rewrite Upload_result. cbn [fst IPFSHash].
  split; [reflexivity|]. rewrite Heq.
  split; [reflexivity|]. split; [exact Hlen|].
  split; [|discriminate].
  change (S (S (String.length rest)) = 46%nat). rewrite Hlen. reflexivity.
Qed.

(** X4.  Two uploads return the same identifier exactly when the payloads
    have the same SHA-256 digest, whatever the clients and filenames. *)
Theorem Upload_identifier_eq_iff (c1 c2 : MockClient.t) (b1 b2 : list byte)
    (f1 f2 : string) :
  IPFSHash <$> (MockClient.Upload c1 b1 f1).1.1
  = IPFSHash <$> (MockClient.Upload c2 b2 f2).1.1
  <-> SHA256.Sum256 b1 = SHA256.Sum256 b2.
Proof.
  rewrite !Upload_result. unfold fmap, option_fmap, option_map.
  cbn [fst IPFSHash]. rewrite !multihashOf_eq. split.
  - intros Heq. apply (inj Some) in Heq.
    destruct (encodeBase58_parts _ _ Heq) as [Hn Hv].
    pose proof (leadingZeros_value_inj _ _ Hn Hv) as Hmh. congruence.
  - intros ->. reflexivity.
Qed.

Lemma Upload_identifier_eq_iff_witness :
  SHA256.Sum256 [x61] = SHA256.Sum256 [x61] /\
  IPFSHash <$> (MockClient.Upload (MockClient.NewMockClient "") [x61] "a").1.1
  = IPFSHash <$> (MockClient.Upload (MockClient.NewMockClient "gw") [x61] "b").1.1.
Proof.
  assert (H : SHA256.Sum256 [x61] = SHA256.Sum256 [x61]) by reflexivity.
  split; [exact H|].
  exact (proj2 (Upload_identifier_eq_iff (MockClient.NewMockClient "")
                  (MockClient.NewMockClient "gw") [x61] [x61] "a" "b") H).
Defined.

(** ** The in-memory client over a history of calls *)

Lemma Get_state (c : MockClient.t) (cid : string) : (MockClient.Get c cid).2 = c.
Proof. unfold MockClient.Get. destruct (MockClient.storage c !! cid); reflexivity. Qed.

Lemma Get_found (c : MockClient.t) (cid : string) (data : list byte) :
  (MockClient.Get c cid).1 = (data, None) <-> MockClient.storage c !! cid = Some data.
Proof.
  unfold MockClient.Get. destruct (MockClient.storage c !! cid) as [d|]; cbn [fst].
  - split; intros H; congruence.
  - split; intros H; discriminate.
Qed.

(** What a history leaves under an identifier: the last payload uploaded
    that has this identifier. *)
Definition lastUploaded (x : string) (found : option (list byte)) (op : MockOp)
  : option (list byte) :=
  match op with
  | OpUpload data _ =>
      if decide (encodeBase58 (MockClient.multihashOf data) = x) then Some data else found
  | _ => found
  end.

(** X5.  After any history of calls the payload stored under an identifier
    is the one of the last [Upload] whose payload has this identifier, or
    what was there before when there is none: [Get], [Pin] and [Unpin] never
    change what [Get] returns. *)
Theorem storage_after_history (c : MockClient.t) (ops : list MockOp) (x : string) :
  MockClient.storage (runOps c ops) !! x
  = fold_left (lastUploaded x) ops (MockClient.storage c !! x).
Proof.
  unfold runOps. revert c. induction ops as [|op ops IH]; intros c; [reflexivity|].
  cbn [fold_left]. rewrite IH. f_equal.
  destruct op as [data f|cid|cid|cid]; cbn [runOp lastUploaded].
  - rewrite Upload_result. cbn [snd MockClient.storage].
    destruct (decide (encodeBase58 (MockClient.multihashOf data) = x)) as [<-|Hne].
    + apply lookup_insert_eq.
    + apply lookup_insert_ne. exact Hne.
  - rewrite Get_state. reflexivity.
  - reflexivity.
  - reflexivity.
Qed.

(** What a history leaves of the pin of an identifier. *)
Definition lastPinned (x : string) (pinned : bool) (op : MockOp) : bool :=
  match op with
  | OpPin cid => if decide (cid = x) then true else pinned
  | OpUnpin cid => if decide (cid = x) then false else pinned
  | _ => pinned
  end.

(** X6.  After any history of calls an identifier is pinned exactly when
    the last [Pin] or [Unpin] of it was a [Pin], or when it was pinned
    before and the history has neither; uploads, reads and the pins of other
    identifiers do not count. *)
Theorem IsPinned_after_history (c : MockClient.t) (ops : list MockOp) (x : string) :
  MockClient.IsPinned (runOps c ops) x
  = fold_left (lastPinned x) ops (MockClient.IsPinned c x).
Proof.
  unfold runOps. revert c. induction ops as [|op ops IH]; intros c; [reflexivity|].
  cbn [fold_left]. rewrite IH. f_equal. unfold MockClient.IsPinned.
  destruct op as [data f|cid|cid|cid]; cbn [runOp lastPinned].
  - reflexivity.
  - rewrite Get_state. reflexivity.
  - cbn [MockClient.Pin snd MockClient.pins].
    destruct (decide (cid = x)) as [->|Hne].
    + rewrite lookup_insert_eq. reflexivity.
    + rewrite lookup_insert_ne by exact Hne. reflexivity.
  - cbn [MockClient.Unpin snd MockClient.pins].
    destruct (decide (cid = x)) as [->|Hne].
    + rewrite lookup_delete_eq. reflexivity.
    + rewrite lookup_delete_ne by exact Hne. reflexivity.
Qed.






(** X8.  Payloads with different digests do not disturb each other: after
    uploading one and then the other, each is returned by [Get] under its
    own identifier, and the two identifiers differ. *)
Theorem Upload_distinct_payloads (c : MockClient.t) (b1 b2 : list byte)
    (f1 f2 : string) :
  SHA256.Sum256 b1 <> SHA256.Sum256 b2 ->
  let cid1 := encodeBase58 (MockClient.multihashOf b1) in
  let cid2 := encodeBase58 (MockClient.multihashOf b2) in
  let c2 := (MockClient.Upload (MockClient.Upload c b1 f1).2 b2 f2).2 in
  cid1 <> cid2 /\
  (MockClient.Get c2 cid1).1 = (b1, None) /\
  (MockClient.Get c2 cid2).1 = (b2, None).
Proof.
  intros Hne cid1 cid2 c2.
  assert (Hcid : cid2 <> cid1).
  { unfold cid1, cid2. intros Heq.
    destruct (encodeBase58_parts _ _ Heq) as [Hn Hv].
    pose proof (leadingZeros_value_inj _ _ Hn Hv) as Hmh.
    rewrite !multihashOf_eq in Hmh. apply Hne. congruence. }
  split; [intros H; apply Hcid; symmetry; exact H|].
  unfold c2. rewrite !Upload_result. cbn [snd MockClient.storage].
  fold cid1 cid2. split; apply Get_found; cbn [MockClient.storage].
  - rewrite lookup_insert_ne by exact Hcid. apply lookup_insert_eq.
  - apply lookup_insert_eq.
Qed.

Lemma Upload_distinct_payloads_witness :
  SHA256.Sum256 [x61] <> SHA256.Sum256 [x62] /\
  (MockClient.Get
     (MockClient.Upload (MockClient.Upload (MockClient.NewMockClient "") [x61] "a").2
                        [x62] "b").2
     (encodeBase58 (MockClient.multihashOf [x61]))).1
  = ([x61], None).
Proof.
  assert (H : SHA256.Sum256 [x61] <> SHA256.Sum256 [x62])
    by (vm_compute; discriminate).
  split; [exact H|].
  destruct (Upload_distinct_payloads (MockClient.NewMockClient "") [x61] [x62] "a" "b" H)
    as (_ & Hget & _).
  exact Hget.
Defined.

(** X9.  Whatever order [GetStoredCIDs] returns, the list has no duplicate,
    holds exactly the identifiers [Get] succeeds on, and has one entry per
    stored payload; the list of a new client is empty, and an identifier is
    listed as soon as its payload is uploaded. *)
Theorem GetStoredCIDs_keys (c : MockClient.t) (cids : list string) :
  MockClient.GetStoredCIDs c cids ->
  NoDup cids /\
  (forall x, x ∈ cids <-> exists data, (MockClient.Get c x).1 = (data, None)) /\
  length cids = size (MockClient.storage c) /\
  (forall gatewayURL, c = MockClient.NewMockClient gatewayURL -> cids = []) /\
  (forall c0 data f, c = (MockClient.Upload c0 data f).2 ->
     encodeBase58 (MockClient.multihashOf data) ∈ cids).
Proof.
  unfold MockClient.GetStoredCIDs, MockClient.storedCIDs. intros Hp.
  assert (Hin : forall x, x ∈ cids <-> is_Some (MockClient.storage c !! x)).
  { intros x. rewrite Hp, list_elem_of_fmap. split.
    - intros ([k d] & -> & Hkd). apply elem_of_map_to_list in Hkd. eauto.
    - intros [d Hd]. exists (x, d). split; [reflexivity|].
      apply elem_of_map_to_list. exact Hd. }
  split; [rewrite Hp; apply NoDup_fst_map_to_list|].
  split.
  { intros x. rewrite Hin. split.
    - intros [d Hd]. exists d. apply Get_found. exact Hd.
    - intros [d Hd]. apply Get_found in Hd. eauto. }
  split; [rewrite Hp, length_fmap; apply length_map_to_list|].
  split.
  - intros gw ->. cbn in Hp. rewrite map_to_list_empty in Hp.
    apply Permutation_nil_r in Hp. exact Hp.
  - intros c0 data f ->. apply Hin. rewrite Upload_result.
    cbn [snd MockClient.storage]. rewrite lookup_insert_eq. eauto.
Qed.

Lemma GetStoredCIDs_keys_witness :
  let c := (MockClient.Upload (MockClient.NewMockClient "") [x61; x62; x63] "abc").2 in
  MockClient.GetStoredCIDs c (MockClient.storedCIDs c) /\
  length (MockClient.storedCIDs c) = size (MockClient.storage c).
Proof.
  intros c.
  assert (H : MockClient.GetStoredCIDs c (MockClient.storedCIDs c))
    by (unfold MockClient.GetStoredCIDs; reflexivity).
  split; [exact H|].
  destruct (GetStoredCIDs_keys c _ H) as (_ & _ & Hlen & _). exact Hlen.
Defined.

(** ** The size string of the in-memory client read back by the handlers *)

Lemma decimal_char (d : N) :
  (d < 10)%N ->
  strconv.digitVal (strconv.code (pretty_N_char d)) = Some (Z.of_N d) /\
  Ascii.eqb (pretty_N_char d) "+" = false /\
  Ascii.eqb (pretty_N_char d) "-" = false.
Proof.
  intros Hd.
  assert (d = 0 \/ d = 1 \/ d = 2 \/ d = 3 \/ d = 4 \/ d = 5 \/ d = 6 \/ d = 7
          \/ d = 8 \/ d = 9)%N as Hcases by lia.
  repeat (destruct Hcases as [->|Hcases]; [vm_compute; repeat split|]).
  subst d. vm_compute. repeat split.
Qed.

Lemma parseUintLoop_pretty (x : N) (s : string) :
  (x < 2 ^ 64)%N ->
  strconv.parseUintLoop 10 (2 ^ 64 - 1) (strconv.maxUint64 / 10 + 1) (pretty_N_go x s) 0
  = strconv.parseUintLoop 10 (2 ^ 64 - 1) (strconv.maxUint64 / 10 + 1) s (Z.of_N x).
Proof.
  revert s. induction (N.lt_wf_0 x) as [x _ IH]. intros s Hx.
  destruct (N.eq_dec x 0%N) as [->|Hnz]; [rewrite pretty_N_go_0; reflexivity|].
  rewrite pretty_N_go_step by lia.
  assert (Hdiv : (x / 10 < x)%N) by (apply N.div_lt; lia).
  assert (Hmod : (x mod 10 < 10)%N) by (apply N.mod_lt; lia).
  rewrite IH by lia. cbn [strconv.parseUintLoop].
  destruct (decimal_char _ Hmod) as (-> & _ & _).
  pose proof (N.div_mod x 10 ltac:(lia)) as Hdm.
  assert (Hq : Z.of_N (x / 10) * 10 + Z.of_N (x mod 10) = Z.of_N x) by lia.
  assert (Hx' : Z.of_N x < 2 ^ 64) by (change (2 ^ 64) with (Z.of_N (2 ^ 64)); lia).
  assert (Hr : 0 <= Z.of_N (x mod 10) < 10).
  { split; [apply N2Z.is_nonneg|]. change 10 with (Z.of_N 10).
    apply N2Z.inj_lt. exact Hmod. }
  assert (Hq0 : 0 <= Z.of_N (x / 10)) by apply N2Z.is_nonneg.
  change (strconv.maxUint64 / 10 + 1) with 1844674407370955162.
  change (2 ^ 64 - 1) with 18446744073709551615 in *.
  change (2 ^ 64) with 18446744073709551616 in Hx'.
  set (q := Z.of_N (x / 10)) in *. set (r := Z.of_N (x mod 10)) in *.
  set (X := Z.of_N x) in *. clearbody q r X. clear IH Hx Hnz Hdiv Hmod Hdm.
  destruct (Z.leb_spec 10 r) as [|_]; [lia|].
  destruct (Z.leb_spec 1844674407370955162 q) as [|_]; [lia|].
  unfold strconv.uint64. change (2 ^ 64) with 18446744073709551616.
  rewrite (Z.mod_small (q * 10)) by lia.
  rewrite Hq. rewrite Z.mod_small by lia.
  destruct (Z.ltb_spec X (q * 10)) as [|_]; [lia|].
  destruct (Z.ltb_spec 18446744073709551615 X) as [|_]; [lia|].
  reflexivity.
Qed.

Lemma pretty_N_go_digit (x : N) (d : N) (s : string) :
  (d < 10)%N ->
  exists d' s', (d' < 10)%N /\ pretty_N_go x (String (pretty_N_char d) s)
                              = String (pretty_N_char d') s'.
Proof.
  revert d s. induction (N.lt_wf_0 x) as [x _ IH]. intros d s Hd.
  destruct (N.eq_dec x 0%N) as [->|Hnz].
  - exists d, s. split; [exact Hd | apply pretty_N_go_0].
  - rewrite pretty_N_go_step by lia. apply IH; [apply N.div_lt; lia | apply N.mod_lt; lia].
Qed.

(** [fmt.Sprintf("%d", n)] read back by [strconv.ParseInt]. *)
Lemma ParseInt_pretty (n : nat) :
  Z.of_nat n < 2 ^ 63 ->
  strconv.ParseInt (pretty n) 10 64 = (Z.of_nat n, None).
Proof.
  intros Hn. unfold pretty, pretty_nat, pretty, pretty_N.
  destruct (decide (N.of_nat n = 0%N)) as [Hz|Hnz].
  { replace (Z.of_nat n) with 0 by lia. reflexivity. }
  assert (Hx : (N.of_nat n < 2 ^ 64)%N).
  { change (2 ^ 63) with 9223372036854775808 in Hn.
    change (2 ^ 64)%N with 18446744073709551616%N. lia. }
  pose proof (parseUintLoop_pretty (N.of_nat n) "" Hx) as Hloop.
  cbn [strconv.parseUintLoop] in Hloop.
  rewrite pretty_N_go_step in * by lia.
  destruct (pretty_N_go_digit (N.of_nat n / 10) (N.of_nat n mod 10) ""
              ltac:(apply N.mod_lt; lia)) as (d' & s' & Hd' & Heq).
  rewrite Heq in *. destruct (decimal_char d' Hd') as (_ & Hplus & Hminus).
  unfold strconv.ParseInt. rewrite Hplus, Hminus. cbn [orb negb andb].
  unfold strconv.ParseUint.
  change (strconv.uint64 (strconv.uint64 (Z.shiftl 1 64) - 1)) with (2 ^ 64 - 1).
  rewrite Hloop.
  change (strconv.uint64 (Z.shiftl 1 (64 - 1))) with (2 ^ 63).
  replace (Z.of_N (N.of_nat n)) with (Z.of_nat n) by lia.
  destruct (Z.leb_spec (2 ^ 63) (Z.of_nat n)) as [|_]; [lia|].
  unfold strconv.int64. f_equal.
  change (2 ^ 63) with 9223372036854775808 in *.
  change (2 ^ 64) with 18446744073709551616.
  rewrite Z.mod_small by lia. lia.
Qed.

(** X10.  On the in-memory client, [UploadContent] and [UploadProto] reply
    with a [size_bytes] equal to the length of the payload: the decimal
    string [Upload] writes is read back exactly (for every length an [int64]
    holds). *)
Theorem Upload_size_is_length (c : MockClient.t) (data : list byte)
    (filename protoType : string) :
  data <> [] ->
  Z.of_nat (length data) < 2 ^ 63 ->
  let cid := encodeBase58 (MockClient.multihashOf data) in
  GRPCServer.UploadContent c (pb.UploadContentRequest.mk data filename)
  = (Ok (pb.UploadContentResponse.mk cid (Z.of_nat (length data))),
     (MockClient.Upload c data (GRPCServer.contentFilename filename)).2) /\
  GRPCServer.UploadProto c (pb.UploadProtoRequest.mk data protoType)
  = (Ok (pb.UploadProtoResponse.mk cid (Z.of_nat (length data))),
     (MockClient.Upload c data (GRPCServer.protoFilename protoType)).2).
Proof.
  intros Hd Hlen cid. split.
  - erewrite (UploadContent_outcome c _ (pb.UploadContentRequest.mk data filename)
                _ _ Hd); [|reflexivity].
    cbn [Size IPFSHash pb.UploadContentRequest.Data].
    rewrite (ParseInt_pretty _ Hlen). reflexivity.
  - erewrite (UploadProto_outcome c _ (pb.UploadProtoRequest.mk data protoType)
                _ _ Hd); [|reflexivity].
    cbn [Size IPFSHash pb.UploadProtoRequest.ProtoData].
    rewrite (ParseInt_pretty _ Hlen). reflexivity.
Qed.

Lemma Upload_size_is_length_witness :
  [x61; x62; x63] <> [] /\ Z.of_nat (length [x61; x62; x63]) < 2 ^ 63 /\
  (GRPCServer.UploadContent (MockClient.NewMockClient "")
     (pb.UploadContentRequest.mk [x61; x62; x63] "")).1
  = Ok (pb.UploadContentResponse.mk
          (encodeBase58 (MockClient.multihashOf [x61; x62; x63])) 3).
Proof.
  assert (Hd : [x61; x62; x63] <> []) by discriminate.
  assert (Hl : Z.of_nat (length [x61; x62; x63]) < 2 ^ 63) by reflexivity.
  split; [exact Hd | split; [exact Hl|]].
  rewrite (proj1 (Upload_size_is_length (MockClient.NewMockClient "")
                    [x61; x62; x63] "" "" Hd Hl)).
  reflexivity.
Defined.

(** ** The handlers on the in-memory client *)

Lemma multihashOf_identifier_nonempty (data : list byte) :
  encodeBase58 (MockClient.multihashOf data) <> "".
Proof.
  destruct (multihash_identifier_shape (SHA256.Sum256 data) (Sum256_length data))
    as (rest & _ & Heq).
  rewrite multihashOf_eq, Heq. discriminate.
Qed.

Lemma Get_after_Upload (c : MockClient.t) (data : list byte) (f : string) :
  let c1 := (MockClient.Upload c data f).2 in
  Get c1 (encodeBase58 (MockClient.multihashOf data)) = ((data, None), c1).
Proof.
  intros c1. unfold c1. rewrite Upload_result. cbn [snd].
  unfold Get, MockClient_IPFSClient, MockClient.Get. cbn [MockClient.storage].
  rewrite lookup_insert_eq. reflexivity.
Qed.

Lemma Upload_mock (c : MockClient.t) (data : list byte) (f : string) :
  Upload c data f
  = ((Some (mkAddResponse f (encodeBase58 (MockClient.multihashOf data))
                          (pretty (length data))), None),
     (MockClient.Upload c data f).2).
Proof. reflexivity. Qed.

(** X11.  Round trip through the handlers: what [UploadContent] or
    [UploadProto] stored under the identifier of its reply is what
    [GetContent] and [GetProto] return for that identifier, with a
    [size_bytes] equal to its length; raw and structured uploads share one
    store. *)
Theorem handlers_roundtrip (c : MockClient.t) (data : list byte)
    (filename protoType : string) :
  data <> [] ->
  (exists resp c1,
     GRPCServer.UploadContent c (pb.UploadContentRequest.mk data filename)
     = (Ok resp, c1) /\
     GRPCServer.GetContent c1
       (pb.GetContentRequest.mk (pb.UploadContentResponse.Cid resp))
     = (Ok (pb.GetContentResponse.mk data (Z.of_nat (length data))), c1) /\
     GRPCServer.GetProto c1
       (pb.GetProtoRequest.mk (pb.UploadContentResponse.Cid resp))
     = (Ok (pb.GetProtoResponse.mk data), c1)) /\
  (exists resp c1,
     GRPCServer.UploadProto c (pb.UploadProtoRequest.mk data protoType)
     = (Ok resp, c1) /\
     GRPCServer.GetProto c1
       (pb.GetProtoRequest.mk (pb.UploadProtoResponse.Cid resp))
     = (Ok (pb.GetProtoResponse.mk data), c1) /\
     GRPCServer.GetContent c1
       (pb.GetContentRequest.mk (pb.UploadProtoResponse.Cid resp))
     = (Ok (pb.GetContentResponse.mk data (Z.of_nat (length data))), c1)).
Proof.
  intros Hd. pose proof (multihashOf_identifier_nonempty data) as Hcid. split.
  - do 2 eexists. split.
    + rewrite (UploadContent_outcome c _ (pb.UploadContentRequest.mk data filename)
                 _ _ Hd (Upload_mock c data _)). reflexivity.
    + cbn [pb.UploadContentResponse.Cid IPFSHash pb.UploadContentRequest.Data].
      split.
      * erewrite (GetContent_outcome _ _ (pb.GetContentRequest.mk _) _ _ Hcid
                    (Get_after_Upload c data _)). reflexivity.
      * erewrite (GetProto_outcome _ _ (pb.GetProtoRequest.mk _) _ _ Hcid
                    (Get_after_Upload c data _)). reflexivity.
  - do 2 eexists. split.
    + rewrite (UploadProto_outcome c _ (pb.UploadProtoRequest.mk data protoType)
                 _ _ Hd (Upload_mock c data _)). reflexivity.
    + cbn [pb.UploadProtoResponse.Cid IPFSHash pb.UploadProtoRequest.ProtoData].
      split.
      * erewrite (GetProto_outcome _ _ (pb.GetProtoRequest.mk _) _ _ Hcid
                    (Get_after_Upload c data _)). reflexivity.
      * erewrite (GetContent_outcome _ _ (pb.GetContentRequest.mk _) _ _ Hcid
                    (Get_after_Upload c data _)). reflexivity.
Qed.

Lemma handlers_roundtrip_witness :
  [x61; x62; x63] <> [] /\
  exists resp c1,
    GRPCServer.UploadContent (MockClient.NewMockClient "")
      (pb.UploadContentRequest.mk [x61; x62; x63] "") = (Ok resp, c1) /\
    GRPCServer.GetContent c1
      (pb.GetContentRequest.mk (pb.UploadContentResponse.Cid resp))
    = (Ok (pb.GetContentResponse.mk [x61; x62; x63] 3), c1).
Proof.
  assert (Hd : [x61; x62; x63] <> []) by discriminate.
  split; [exact Hd|].
  destruct (proj1 (handlers_roundtrip (MockClient.NewMockClient "")
                     [x61; x62; x63] "" "" Hd)) as (resp & c1 & Hup & Hget & _).
  exists resp, c1. split; [exact Hup | exact Hget].
Defined.

Lemma Get_missing (c : MockClient.t) (cid : string) :
  MockClient.storage c !! cid = None ->
  Get c cid
  = (([], Some ("content not found: " +:+ cid +:+ " (mock storage was likely reset)")), c).
Proof.
  intros Hnone. unfold Get, MockClient_IPFSClient, MockClient.Get.
  rewrite Hnone. reflexivity.
Qed.

(** X12.  On the in-memory client, [GetContent] and [GetProto] for a
    non-empty identifier that the store does not hold reply with the
    not-found status, whose message names the identifier, and leave the
    client as it was; on a new client this is so for every identifier. *)
Theorem Get_handlers_not_found (c : MockClient.t) (cid : string) :
  cid <> "" ->
  MockClient.storage c !! cid = None ->
  let msg := "content not found: " +:+ cid +:+ " (mock storage was likely reset)" in
  GRPCServer.GetContent c (pb.GetContentRequest.mk cid)
  = (Fail (status.mk codes.NotFound ("failed to get content: " +:+ msg)), c) /\
  GRPCServer.GetProto c (pb.GetProtoRequest.mk cid)
  = (Fail (status.mk codes.NotFound ("failed to get proto: " +:+ msg)), c) /\
  (forall gatewayURL,
     GRPCServer.GetContent (MockClient.NewMockClient gatewayURL)
       (pb.GetContentRequest.mk cid)
     = (Fail (status.mk codes.NotFound ("failed to get content: " +:+ msg)),
        MockClient.NewMockClient gatewayURL)).
Proof.
  intros Hc Hnone msg. split; [|split].
  - rewrite (GetContent_outcome c c (pb.GetContentRequest.mk cid) _ _ Hc
               (Get_missing c cid Hnone)). reflexivity.
  - rewrite (GetProto_outcome c c (pb.GetProtoRequest.mk cid) _ _ Hc
               (Get_missing c cid Hnone)). reflexivity.
  - intros gw.
    rewrite (GetContent_outcome _ _ (pb.GetContentRequest.mk cid) _ _ Hc
               (Get_missing (MockClient.NewMockClient gw) cid (lookup_empty cid))).
    reflexivity.
Qed.

Lemma Get_handlers_not_found_witness :
  "QmX" <> "" /\
  MockClient.storage (MockClient.NewMockClient "") !! "QmX" = None /\
  (GRPCServer.GetContent (MockClient.NewMockClient "") (pb.GetContentRequest.mk "QmX")).1
  = Fail (status.mk codes.NotFound
            "failed to get content: content not found: QmX (mock storage was likely reset)").
Proof.
  assert (Hc : "QmX" <> "") by discriminate.
  assert (Hn : MockClient.storage (MockClient.NewMockClient "") !! "QmX" = None)
    by reflexivity.
  split; [exact Hc | split; [exact Hn|]].
  rewrite (proj1 (Get_handlers_not_found (MockClient.NewMockClient "") "QmX" Hc Hn)).
  reflexivity.
Defined.

(** X13.  Pins do not depend on the store.  For a non-empty identifier,
    [PinContent] and [UnpinContent] on the in-memory client always reply
    with [success = true], whether or not a payload is stored under it; the
    identifier is pinned after the first and not pinned after the second,
    and neither makes [GetContent] find or lose a payload. *)
Theorem Pin_handlers (c : MockClient.t) (cid : string) :
  cid <> "" ->
  let pinned := (MockClient.Pin c cid).2 in
  let unpinned := (MockClient.Unpin c cid).2 in
  GRPCServer.PinContent c (pb.PinContentRequest.mk cid)
  = (Ok (pb.PinContentResponse.mk true), pinned) /\
  GRPCServer.UnpinContent c (pb.UnpinContentRequest.mk cid)
  = (Ok (pb.UnpinContentResponse.mk true), unpinned) /\
  MockClient.IsPinned pinned cid = true /\
  MockClient.IsPinned unpinned cid = false /\
  (forall x, (GRPCServer.GetContent pinned (pb.GetContentRequest.mk x)).1
             = (GRPCServer.GetContent c (pb.GetContentRequest.mk x)).1) /\
  (forall x, (GRPCServer.GetContent unpinned (pb.GetContentRequest.mk x)).1
             = (GRPCServer.GetContent c (pb.GetContentRequest.mk x)).1).
Proof.
  intros Hc pinned unpinned.
  assert (Hpin : Pin c cid = (None, pinned)) by reflexivity.
  assert (Hunpin : Unpin c cid = (None, unpinned)) by reflexivity.
  split; [|split; [|split; [|split; [|split]]]].
  - rewrite (PinContent_outcome c pinned (pb.PinContentRequest.mk cid) None Hc Hpin).
    reflexivity.
  - rewrite (UnpinContent_outcome c unpinned (pb.UnpinContentRequest.mk cid) None Hc Hunpin).
    reflexivity.
  - unfold MockClient.IsPinned, pinned. cbn [MockClient.Pin snd MockClient.pins].
    rewrite lookup_insert_eq. reflexivity.
  - unfold MockClient.IsPinned, unpinned. cbn [MockClient.Unpin snd MockClient.pins].
    rewrite lookup_delete_eq. reflexivity.
  - intros x. unfold GRPCServer.GetContent, Get, MockClient_IPFSClient, MockClient.Get.
    cbn [pb.GetContentRequest.Cid]. destruct (String.eqb x ""); [reflexivity|].
    unfold pinned. cbn [MockClient.Pin snd MockClient.storage].
    destruct (MockClient.storage c !! x); reflexivity.
  - intros x. unfold GRPCServer.GetContent, Get, MockClient_IPFSClient, MockClient.Get.
    cbn [pb.GetContentRequest.Cid]. destruct (String.eqb x ""); [reflexivity|].
    unfold unpinned. cbn [MockClient.Unpin snd MockClient.storage].
    destruct (MockClient.storage c !! x); reflexivity.
Qed.

Lemma Pin_handlers_witness :
  "QmX" <> "" /\
  (GRPCServer.PinContent (MockClient.NewMockClient "") (pb.PinContentRequest.mk "QmX")).1
  = Ok (pb.PinContentResponse.mk true) /\
  MockClient.IsPinned (MockClient.Pin (MockClient.NewMockClient "") "QmX").2 "QmX" = true.
Proof.
  assert (Hc : "QmX" <> "") by discriminate.
  split; [exact Hc|].
  destruct (Pin_handlers (MockClient.NewMockClient "") "QmX" Hc) as (Hp & _ & Hi & _).
  split; [rewrite Hp; reflexivity | exact Hi].
Defined.

(** ** What the handlers ask of their client *)

Lemma contentFilename_nonempty (filename : string) :
  GRPCServer.contentFilename filename <> "" /\
  (filename <> "" -> GRPCServer.contentFilename filename = filename) /\
  GRPCServer.contentFilename "" = "content".
Proof.
  unfold GRPCServer.contentFilename. destruct (String.eqb_spec filename "") as [->|Hne].
  - split; [discriminate|]. split; [intros H; contradiction | reflexivity].
  - split; [exact Hne|]. split; [intros _; reflexivity | reflexivity].
Qed.

Lemma protoFilename_nonempty (protoType : string) :
  GRPCServer.protoFilename protoType <> "" /\
  (protoType <> "" -> GRPCServer.protoFilename protoType = protoType +:+ ".pb") /\
  GRPCServer.protoFilename "" = "data.pb".
Proof.
  unfold GRPCServer.protoFilename. destruct (String.eqb_spec protoType "") as [->|Hne].
  - split; [discriminate|]. split; [intros H; contradiction | reflexivity].
  - split; [destruct protoType; [contradiction | discriminate]|].
    split; [intros _; reflexivity | reflexivity].
Qed.

(** X14.  A handler given a valid request calls its client exactly once,
    whatever the client answers: one [Upload] with the payload unchanged
    and a filename that is never empty (the caller's, or ["content"] or
    ["data.pb"] when it gave none), or one [Get], [Pin], [Unpin] or
    [GetGatewayURL] with the identifier unchanged.  There is no retry and no
    second method. *)
Theorem handlers_call_once (spy : SpyClient.t) (data : list byte)
    (filename protoType cid : string) :
  data <> [] -> cid <> "" ->
  (SpyClient.calls (GRPCServer.UploadContent spy (pb.UploadContentRequest.mk data filename)).2
   = SpyClient.calls spy
     ++ [SpyClient.UploadCall data (GRPCServer.contentFilename filename)] /\
   GRPCServer.contentFilename filename <> "" /\
   (filename <> "" -> GRPCServer.contentFilename filename = filename)) /\
  (SpyClient.calls (GRPCServer.UploadProto spy (pb.UploadProtoRequest.mk data protoType)).2
   = SpyClient.calls spy
     ++ [SpyClient.UploadCall data (GRPCServer.protoFilename protoType)] /\
   GRPCServer.protoFilename protoType <> "" /\
   (protoType <> "" -> GRPCServer.protoFilename protoType = protoType +:+ ".pb")) /\
  SpyClient.calls (GRPCServer.GetContent spy (pb.GetContentRequest.mk cid)).2
  = SpyClient.calls spy ++ [SpyClient.GetCall cid] /\
  SpyClient.calls (GRPCServer.GetProto spy (pb.GetProtoRequest.mk cid)).2
  = SpyClient.calls spy ++ [SpyClient.GetCall cid] /\
  SpyClient.calls (GRPCServer.PinContent spy (pb.PinContentRequest.mk cid)).2
  = SpyClient.calls spy ++ [SpyClient.PinCall cid] /\
  SpyClient.calls (GRPCServer.UnpinContent spy (pb.UnpinContentRequest.mk cid)).2
  = SpyClient.calls spy ++ [SpyClient.UnpinCall cid] /\
  SpyClient.calls (GRPCServer.GetGatewayURL spy (pb.GetGatewayURLRequest.mk cid)).2
  = SpyClient.calls spy ++ [SpyClient.GetGatewayURLCall cid].
Proof.
  intros Hd Hc.
  destruct (contentFilename_nonempty filename) as (Hcf & Hcf' & _).
  destruct (protoFilename_nonempty protoType) as (Hpf & Hpf' & _).
  pose proof (cid_eqb_nonempty cid Hc) as Hceq.
  pose proof (length_eqb_nonempty data Hd) as Hdeq.
  split; [split; [|split; assumption] | split; [split; [|split; assumption]|]].
  - unfold GRPCServer.UploadContent. cbn [pb.UploadContentRequest.Data].
    rewrite Hdeq. cbn [Upload SpyClient_IPFSClient].
    destruct (SpyClient.uploadReply spy) as [[r|] [e|]]; reflexivity.
  - unfold GRPCServer.UploadProto. cbn [pb.UploadProtoRequest.ProtoData].
    rewrite Hdeq. cbn [Upload SpyClient_IPFSClient].
    destruct (SpyClient.uploadReply spy) as [[r|] [e|]]; reflexivity.
  - unfold GRPCServer.GetContent, GRPCServer.GetProto, GRPCServer.PinContent,
      GRPCServer.UnpinContent, GRPCServer.GetGatewayURL.
    cbn [pb.GetContentRequest.Cid pb.GetProtoRequest.Cid pb.PinContentRequest.Cid
         pb.UnpinContentRequest.Cid pb.GetGatewayURLRequest.Cid].
    rewrite !Hceq. cbn [Get Pin Unpin GetGatewayURL SpyClient_IPFSClient].
    destruct (SpyClient.getReply spy) as [d [e|]];
      destruct (SpyClient.pinReply spy) as [e1|];
      destruct (SpyClient.unpinReply spy) as [e2|]; repeat split.
Qed.

Lemma handlers_call_once_witness :
  [x61] <> [] /\ "QmX" <> "" /\
  SpyClient.calls (GRPCServer.UploadContent failingSpy (pb.UploadContentRequest.mk [x61] "")).2
  = [SpyClient.UploadCall [x61] "content"].
Proof.
  assert (Hd : [x61] <> []) by discriminate.
  assert (Hc : "QmX" <> "") by discriminate.
  split; [exact Hd | split; [exact Hc|]].
  destruct (handlers_call_once failingSpy [x61] "" "" "QmX" Hd Hc) as ((Hup & _) & _).
  rewrite Hup. reflexivity.
Defined.

(** ** Configuration and start-up *)

Lemma getEnv_cases (env : gmap string string) (key defaultValue : string) :
  (config.Getenv env key = "" /\ config.getEnv env key defaultValue = defaultValue) \/
  (config.Getenv env key <> "" /\
   config.getEnv env key defaultValue = config.Getenv env key).
Proof.
  unfold config.getEnv. destruct (String.eqb_spec (config.Getenv env key) "") as [He|Hne].
  - left. split; [exact He | reflexivity].
  - right. split; [exact Hne | reflexivity].
Qed.

Lemma getEnv_nonempty (env : gmap string string) (key defaultValue : string) :
  defaultValue <> "" -> config.getEnv env key defaultValue <> "".
Proof.
  intros Hd. destruct (getEnv_cases env key defaultValue) as [[_ ->]|[Hne ->]]; assumption.
Qed.

Lemma getEnv_empty_is_unset (env : gmap string string) (k key defaultValue : string) :
  config.getEnv (<[k := ""]> env) key defaultValue
  = config.getEnv (delete k env) key defaultValue.
Proof.
  unfold config.getEnv, config.Getenv. destruct (decide (k = key)) as [->|Hne].
  - rewrite lookup_insert_eq, lookup_delete_eq. reflexivity.
  - rewrite lookup_insert_ne, lookup_delete_ne by exact Hne. reflexivity.
Qed.

(** X15.  Whatever the environment, the port, the API base URL and the
    gateway URL of the loaded configuration are not empty; with nothing set
    they are the documented defaults and the project id is empty; a variable
    set to the empty string counts as not set; and a variable set to a
    non-empty value is taken as it is. *)
Theorem Load_fields (env : gmap string string) :
  (config.GRPCPort (config.Load env) <> "" /\
   config.BlockfrostIPFSBaseURL (config.Load env) <> "" /\
   config.IPFSGatewayURL (config.Load env) <> "") /\
  config.Load ∅
  = config.mk "9093" "" "https://ipfs.blockfrost.io/api/v0"
              "https://ipfs.blockfrost.dev/ipfs" /\
  (forall k, config.Load (<[k := ""]> env) = config.Load (delete k env)) /\
  (forall v, v <> "" ->
     config.GRPCPort (config.Load (<["GRPC_PORT" := v]> env)) = v /\
     config.BlockfrostProjectID
       (config.Load (<["BLOCKFROST_IPFS_PROJECT_ID" := v]> env)) = v /\
     config.BlockfrostIPFSBaseURL
       (config.Load (<["BLOCKFROST_IPFS_BASE_URL" := v]> env)) = v /\
     config.IPFSGatewayURL (config.Load (<["IPFS_GATEWAY_URL" := v]> env)) = v).
Proof.
  split; [|split; [reflexivity | split]].
  - unfold config.Load. cbn [config.GRPCPort config.BlockfrostIPFSBaseURL
                             config.IPFSGatewayURL].
    repeat split; apply getEnv_nonempty; discriminate.
  - intros k. unfold config.Load. rewrite !getEnv_empty_is_unset. reflexivity.
  - intros v Hv. unfold config.Load, config.getEnv, config.Getenv.
    cbn [config.GRPCPort config.BlockfrostProjectID config.BlockfrostIPFSBaseURL
         config.IPFSGatewayURL].
    rewrite !lookup_insert_eq. cbn [from_option id].
    apply String.eqb_neq in Hv. rewrite Hv. repeat split.
Qed.

Lemma Load_fields_witness :
  "50051" <> "" /\
  config.GRPCPort (config.Load (<["GRPC_PORT" := "50051"]> ∅)) = "50051".
Proof.
  assert (Hv : "50051" <> "") by discriminate.
  split; [exact Hv|].
  destruct (Load_fields ∅) as (_ & _ & _ & Hset).
  exact (proj1 (Hset "50051" Hv)).
Defined.

(** X16.  [main] runs the in-memory client exactly when
    [BLOCKFROST_IPFS_PROJECT_ID] is not set or is empty, and the remote
    client otherwise, with the project id of the environment and a timeout
    of sixty seconds.  Either client builds its gateway URLs on the
    configured gateway, so the fallback gateway of [NewMockClient] is never
    in use, and the in-memory client starts with nothing stored or
    pinned. *)
Theorem ipfsClient_choice (env : gmap string string) :
  let cfg := config.Load env in
  let id := config.Getenv env "BLOCKFROST_IPFS_PROJECT_ID" in
  (id = "" ->
   main.ipfsClient cfg
   = inl (MockClient.mk ∅ ∅ (config.IPFSGatewayURL cfg))) /\
  (id <> "" ->
   main.ipfsClient cfg
   = inr (BlockfrostClient.mk id (config.BlockfrostIPFSBaseURL cfg)
                              (config.IPFSGatewayURL cfg) 60000000000)) /\
  (forall cid,
     main.GetGatewayURL (main.ipfsClient cfg) cid
     = config.IPFSGatewayURL cfg +:+ "/" +:+ cid) /\
  config.IPFSGatewayURL cfg <> "".
Proof.
  intros cfg id.
  assert (Hgw : config.IPFSGatewayURL cfg <> "").
  { unfold cfg, config.Load. cbn [config.IPFSGatewayURL].
    apply getEnv_nonempty. discriminate. }
  assert (Hmock : MockClient.NewMockClient (config.IPFSGatewayURL cfg)
                  = MockClient.mk ∅ ∅ (config.IPFSGatewayURL cfg)).
  { unfold MockClient.NewMockClient.
    destruct (decide (config.IPFSGatewayURL cfg = "")); [contradiction | reflexivity]. }
  assert (Hid : config.BlockfrostProjectID cfg = id).
  { unfold cfg, config.Load. cbn [config.BlockfrostProjectID].
    destruct (getEnv_cases env "BLOCKFROST_IPFS_PROJECT_ID" "") as [[He ->]|[_ ->]];
      [symmetry; exact He | reflexivity]. }
  unfold main.ipfsClient. rewrite Hid, Hmock.
  split; [|split; [|split; [|exact Hgw]]].
  - intros ->. reflexivity.
  - intros Hne. apply String.eqb_neq in Hne. rewrite Hne. reflexivity.
  - intros cid. destruct (String.eqb id ""); reflexivity.
Qed.

Lemma ipfsClient_choice_witness :
  config.Getenv ∅ "BLOCKFROST_IPFS_PROJECT_ID" = "" /\
  main.ipfsClient (config.Load ∅)
  = inl (MockClient.mk ∅ ∅ "https://ipfs.blockfrost.dev/ipfs").
Proof.
  assert (H : config.Getenv ∅ "BLOCKFROST_IPFS_PROJECT_ID" = "") by reflexivity.
  split; [exact H|].
  exact (proj1 (ipfsClient_choice ∅) H).
Defined.

(** ['0'] to ['9']. *)
Definition isDecimalChar (c : ascii) : bool :=
  (48 <=? strconv.code c) && (strconv.code c <=? 57).

Fixpoint allDecimal (s : string) : bool :=
  match s with
  | EmptyString => true
  | String c rest => isDecimalChar c && allDecimal rest
  end.

(** An optional sign followed by at least one decimal digit and nothing
    else. *)
Definition signedDecimal (s : string) : bool :=
  match s with
  | EmptyString => false
  | String c rest =>
      if Ascii.eqb c "+" || Ascii.eqb c "-"
      then negb (String.eqb rest "") && allDecimal rest
      else allDecimal s
  end.

Lemma digitVal_decimal (c : ascii) (d : Z) :
  strconv.digitVal (strconv.code c) = Some d -> d < 10 -> isDecimalChar c = true.
Proof.
  unfold strconv.digitVal, isDecimalChar.
  destruct ((48 <=? strconv.code c) && (strconv.code c <=? 57)); [reflexivity|].
  destruct ((97 <=? strconv.lower (strconv.code c))
            && (strconv.lower (strconv.code c) <=? 122)) eqn:E; [|discriminate].
  intros [= <-] Hd. apply andb_prop in E as [E1 _]. apply Z.leb_le in E1. lia.
Qed.

Lemma parseUintLoop_result (maxVal cutoff : Z) (s : string) (n v : Z)
    (err : option strconv.NumError) :
  strconv.parseUintLoop 10 maxVal cutoff s n = (v, err) ->
  match err with
  | None => allDecimal s = true
  | Some strconv.ErrRange => v = maxVal
  | Some strconv.ErrSyntax => v = 0
  end.
Proof.
  revert n. induction s as [|c s IH]; intros n; cbn [strconv.parseUintLoop allDecimal].
  - intros [= <- <-]. reflexivity.
  - destruct (strconv.digitVal (strconv.code c)) as [d|] eqn:Ed;
      [|intros [= <- <-]; reflexivity].
    destruct (Z.leb_spec 10 d) as [|Hd]; [intros [= <- <-]; reflexivity|].
    destruct (cutoff <=? n); [intros [= <- <-]; reflexivity|].
    match goal with |- context [if ?b then _ else _] => destruct b end;
      [intros [= <- <-]; reflexivity|].
    intros Hrec. specialize (IH _ Hrec). destruct err as [[|]|]; try exact IH.
    rewrite (digitVal_decimal c d Ed Hd), IH. reflexivity.
Qed.

(** [ParseInt] accepts nothing but signed decimal numerals. *)
Lemma ParseInt_accepts (s : string) (v : Z) :
  strconv.ParseInt s 10 64 = (v, None) -> signedDecimal s = true.
Proof.
  unfold strconv.ParseInt, signedDecimal. destruct s as [|c rest]; [discriminate|].
  set (s' := if Ascii.eqb c "+" || Ascii.eqb c "-" then rest else String c rest).
  assert (Hs' : forall un err, strconv.ParseUint s' 10 64 = (un, err) ->
                 match err with
                 | None => negb (String.eqb s' "") && allDecimal s' = true
                 | Some strconv.ErrRange => un = 2 ^ 64 - 1
                 | Some strconv.ErrSyntax => un = 0
                 end).
  { intros un err. unfold strconv.ParseUint. destruct s' as [|c' r'].
    - intros [= <- <-]. reflexivity.
    - intros Hloop. apply parseUintLoop_result in Hloop.
      destruct err as [[|]|]; exact Hloop. }
  destruct (strconv.ParseUint s' 10 64) as [un err]. specialize (Hs' un err eq_refl).
  change (strconv.uint64 (Z.shiftl 1 (64 - 1))) with (2 ^ 63).
  destruct err as [[|]|].
  - discriminate.
  - subst un. change (2 ^ 63 <=? 2 ^ 64 - 1) with true. change (2 ^ 63 <? 2 ^ 64 - 1) with true.
    destruct (Ascii.eqb c "-"); discriminate.
  - intros _. unfold s' in Hs'. destruct (Ascii.eqb c "+" || Ascii.eqb c "-").
    + exact Hs'.
    + apply andb_prop in Hs' as [_ Hs']. exact Hs'.
Qed.

(** X17.  [getEnvInt] returns the default for a variable that is not set
    or is empty; it reads back every non-negative [int64] written in
    decimal; and whenever it returns something else than the default, the
    variable holds an optional sign followed by decimal digits only. *)
Theorem getEnvInt_spec (env : gmap string string) (key : string) (defaultValue : Z) :
  (config.Getenv env key = "" -> config.getEnvInt env key defaultValue = defaultValue) /\
  (forall n : nat,
     Z.of_nat n < 2 ^ 63 -> env !! key = Some (pretty n) ->
     config.getEnvInt env key defaultValue = Z.of_nat n) /\
  (config.getEnvInt env key defaultValue <> defaultValue ->
   signedDecimal (config.Getenv env key) = true).
Proof.
  unfold config.getEnvInt, strconv.Atoi. split; [|split].
  - intros ->. reflexivity.
  - intros n Hn Hkey. unfold config.Getenv. rewrite Hkey. cbn [from_option id].
    pose proof (ParseInt_pretty n Hn) as Hp. rewrite Hp.
    destruct (String.eqb_spec (pretty n) "") as [He|_]; [|reflexivity].
    rewrite He in Hp. discriminate Hp.
  - destruct (String.eqb (config.Getenv env key) ""); cbn [negb];
      [intros H; contradiction|].
    destruct (strconv.ParseInt (config.Getenv env key) 10 64) as [i [e|]] eqn:Ep;
      [intros H; contradiction|].
    intros _. exact (ParseInt_accepts _ _ Ep).
Qed.

Lemma getEnvInt_spec_witness :
  Z.of_nat 42 < 2 ^ 63 /\
  (<["MAX_RETRIES" := "42"]> ∅ : gmap string string) !! "MAX_RETRIES" = Some (pretty 42%nat) /\
  config.getEnvInt (<["MAX_RETRIES" := "42"]> ∅) "MAX_RETRIES" 0 = 42.
Proof.
  assert (Hn : Z.of_nat 42 < 2 ^ 63) by reflexivity.
  assert (Hk : (<["MAX_RETRIES" := "42"]> ∅ : gmap string string) !! "MAX_RETRIES"
               = Some (pretty 42%nat)) by reflexivity.
  split; [exact Hn | split; [exact Hk|]].
  destruct (getEnvInt_spec (<["MAX_RETRIES" := "42"]> ∅) "MAX_RETRIES" 0) as (_ & Hread & _).
  exact (Hread 42%nat Hn Hk).
Defined.

(** ** Length of an encoding *)

Lemma prependOnes_length (n : nat) (s : string) :
  String.length (prependOnes n s) = (n + String.length s)%nat.
Proof.
  revert s. induction n as [|n IH]; intros s; [reflexivity|].
  cbn [prependOnes]. rewrite IH. cbn [String.length]. lia.
Qed.

Lemma spec_base58Digits_length_le (k : nat) (v : Z) (acc : string) :
  0 <= v < 58 ^ Z.of_nat k ->
  (String.length (spec_base58Digits v acc) <= k + String.length acc)%nat.
Proof.
  revert v acc. induction k as [|k IH]; intros v acc Hv; rewrite spec_base58Digits_eq.
  - change (58 ^ Z.of_nat 0) with 1 in Hv.
    destruct (Z.ltb_spec 0 v) as [|_]; [lia | reflexivity].
  - destruct (Z.ltb_spec 0 v) as [Hpos|_]; [|lia].
    replace (Z.of_nat (S k)) with (Z.succ (Z.of_nat k)) in Hv by lia.
    rewrite Z.pow_succ_r in Hv by lia.
    assert (Hq : 0 <= v / 58 < 58 ^ Z.of_nat k).
    { split; [apply Z.div_pos; lia | apply Z.div_lt_upper_bound; lia]. }
    specialize (IH _ (String (alphabetAt (v mod 58)) acc) Hq).
    cbn [String.length] in IH. lia.
Qed.

Lemma spec_base58Digits_length_ge (v : Z) (acc : string) :
  (String.length acc <= String.length (spec_base58Digits v acc))%nat /\
  (0 < v -> (S (String.length acc) <= String.length (spec_base58Digits v acc))%nat).
Proof.
  remember (bits v) as n eqn:Hn. revert v acc Hn.
  induction n as [n IH] using lt_wf_ind. intros v acc ->.
  rewrite spec_base58Digits_eq. destruct (Z.ltb_spec 0 v) as [Hpos|Hle].
  - destruct (IH _ (bits_div58 v Hpos) (v / 58)
                (String (alphabetAt (v mod 58)) acc) eq_refl) as [Hge _].
    cbn [String.length] in Hge. split; [lia | intros _; lia].
  - split; [lia | intros; lia].
Qed.

(** X18.  An encoding is at least as long as its input and at most twice
    as long, the capacity [encodeBase58] reserves for it. *)
Theorem encodeBase58_length (input : list byte) :
  (length input <= String.length (encodeBase58 input) <= 2 * length input)%nat.
Proof.
  unfold encodeBase58. rewrite prependOnes_length, encodeLoop_digits.
  destruct (leadingZeros_split input) as [Esplit Hhead].
  set (n := leadingZeros input) in *. set (rest := drop n input) in *.
  assert (Hlen : length input = (n + length rest)%nat).
  { rewrite Esplit at 1. rewrite length_app, length_replicate. reflexivity. }
  assert (Hval : be_value input = be_value rest).
  { rewrite Esplit at 1. apply be_value_replicate_zeros. }
  rewrite Hlen, Hval. clearbody n rest. clear Esplit Hlen Hval.
  pose proof (be_value_nonneg rest) as Hnn. pose proof (be_value_upper rest) as Hup.
  assert (Hhi : 256 ^ Z.of_nat (length rest) <= 58 ^ Z.of_nat (2 * length rest)).
  { replace (Z.of_nat (2 * length rest)) with (2 * Z.of_nat (length rest)) by lia.
    rewrite Z.pow_mul_r by lia. apply Z.pow_le_mono_l. change (58 ^ 2) with 3364. lia. }
  pose proof (spec_base58Digits_length_le (2 * length rest) (be_value rest) ""
                ltac:(lia)) as Hle.
  cbn [String.length] in Hle. split; [|lia].
  destruct rest as [|b rest]; [cbn [length]; lia|].
  assert (Hb : b <> x00) by (intros ->; apply Hhead; reflexivity).
  pose proof (be_value_lower b rest Hb) as Hlo.
  assert (Hlo' : 58 ^ Z.of_nat (length rest) <= be_value (b :: rest)).
  { etransitivity; [|exact Hlo]. apply Z.pow_le_mono_l. lia. }
  destruct (spec_base58Digits_shift (length rest) (be_value (b :: rest)) "" Hlo')
    as (acc' & Hacc & Heq).
  rewrite Heq.
  assert (Hq : 0 < be_value (b :: rest) / 58 ^ Z.of_nat (length rest)).
  { apply Z.div_str_pos. split; [apply Z.pow_pos_nonneg; lia | exact Hlo']. }
  destruct (spec_base58Digits_length_ge
              (be_value (b :: rest) / 58 ^ Z.of_nat (length rest)) acc') as [_ Hge].
  specialize (Hge Hq). cbn [String.length length] in *. lia.
Qed.

(** ** The gateway URL *)

Lemma runOp_gatewayURL (c : MockClient.t) (op : MockOp) :
  MockClient.gatewayURL (runOp c op) = MockClient.gatewayURL c.
Proof.
  destruct op as [data f|cid|cid|cid]; cbn [runOp]; [reflexivity | | reflexivity..].
  rewrite Get_state. reflexivity.
Qed.

Lemma runOps_gatewayURL (c : MockClient.t) (ops : list MockOp) :
  MockClient.gatewayURL (runOps c ops) = MockClient.gatewayURL c.
Proof.
  unfold runOps. revert c. induction ops as [|op ops IH]; intros c; [reflexivity|].
  cbn [fold_left]. rewrite IH. apply runOp_gatewayURL.
Qed.

(** X19.  The gateway URL of an identifier is fixed when the client is
    built: it is the gateway base, a slash and the identifier, the base
    being the one given to [NewMockClient] or ["https://ipfs.io/ipfs"] when
    none was given, and no history of calls changes it.  The handler returns
    it and leaves the client as it was. *)
Theorem GetGatewayURL_fixed (gatewayURL : string) (ops : list MockOp) (cid : string) :
  let base := if decide (gatewayURL = "") then "https://ipfs.io/ipfs" else gatewayURL in
  let c := runOps (MockClient.NewMockClient gatewayURL) ops in
  MockClient.GetGatewayURL c cid = base +:+ "/" +:+ cid /\
  (cid <> "" ->
   GRPCServer.GetGatewayURL c (pb.GetGatewayURLRequest.mk cid)
   = (Ok (pb.GetGatewayURLResponse.mk (base +:+ "/" +:+ cid)), c)).
Proof.
  intros base c.
  assert (Hgw : MockClient.gatewayURL c = base).
  { unfold c. rewrite runOps_gatewayURL. reflexivity. }
  assert (Hurl : MockClient.GetGatewayURL c cid = base +:+ "/" +:+ cid)
    by (unfold MockClient.GetGatewayURL; rewrite Hgw; reflexivity).
  split; [exact Hurl|]. intros Hc.
  assert (Hcall : GetGatewayURL c cid = (MockClient.GetGatewayURL c cid, c))
    by reflexivity.
  rewrite (GetGatewayURL_outcome c c (pb.GetGatewayURLRequest.mk cid)
             (MockClient.GetGatewayURL c cid) Hc Hcall).
  rewrite Hurl. reflexivity.
Qed.

Lemma GetGatewayURL_fixed_witness :
  "QmX" <> "" /\
  GRPCServer.GetGatewayURL
    (runOps (MockClient.NewMockClient "") [OpPin "QmX"; OpUnpin "QmY"])
    (pb.GetGatewayURLRequest.mk "QmX")
  = (Ok (pb.GetGatewayURLResponse.mk "https://ipfs.io/ipfs/QmX"),
     runOps (MockClient.NewMockClient "") [OpPin "QmX"; OpUnpin "QmY"]).
Proof.
  assert (Hc : "QmX" <> "") by discriminate.
  split; [exact Hc|].
  exact (proj2 (GetGatewayURL_fixed "" [OpPin "QmX"; OpUnpin "QmY"] "QmX") Hc).
Defined.
